(** * aviation_weather: a shallow embedding of [airport.py]

    The Python module fetches aviation weather products for an airport,
    loads a table of airports from a text file, computes great-circle
    distances, and picks the more recent of two forecasts.  Every function
    of the module that a specification sentence talks about is embedded
    below as a Rocq function with the same name, and the sentences are
    settled as theorems about these functions.

    Conventions.
    - A Python [str] and a Python [bytes] object are both modelled by
      Rocq's [string]; a character is the code point below 256 (Latin-1),
      a byte is its value.  The constructor of [value] tells the two
      Python types apart.
    - A Python call either returns or raises: [result].
    - [print] and [urllib.request.urlopen] act on a [world]: the [io]
      monad.
    - A [while] loop that may run forever takes fuel; [None] is
      "still running". *)

From Stdlib Require Import ZArith Lia Ascii String List PrimFloat.
From Stdlib Require Import SpecFloat FloatOps FloatAxioms.
From stdpp Require Import gmap strings list.

Local Open Scope string_scope.
Local Open Scope list_scope.
Local Open Scope Z_scope.

(** ** Exceptions and results *)

Inductive exn : Type :=
| IOError
| ValueError
| TypeError
| IndexError
| UnboundLocalError
| OverflowError.

Inductive result (A : Type) : Type :=
| Return (a : A)
| Raise (e : exn).

Arguments Return {A} a.
Arguments Raise {A} e.

(** Sequencing: an exception ends the computation.  The notations
    [x ← r; k] and [r;; k] are stdpp's. *)
#[global] Instance result_ret : MRet result := @Return.
#[global] Instance result_bind : MBind result := λ A B k r,
  match r with
  | Return a => k a
  | Raise e => Raise e
  end.

(** Running a sequence of pure steps whose outcomes are known. *)
Ltac run_result := unfold mbind, result_bind; cbv beta iota.

(** ** Python values

    The objects the module handles: text, bytes, integers (the elements
    of a [bytes] object), floating-point numbers, and lists of these. *)

Inductive scalar : Type :=
| PyStr (s : string)
| PyBytes (b : string)
| PyInt (n : Z)
| PyFloat (f : float).

Inductive value : Type :=
| Scalar (x : scalar)
| PyList (l : list scalar).

Coercion Scalar : scalar >-> value.

(** ** Characters and strings *)

Definition code (c : ascii) : Z := Z.of_N (N_of_ascii c).

(** [str.isspace] on the code points below 256. *)
Definition is_space (c : ascii) : bool :=
  let n := code c in
  ((9 <=? n) && (n <=? 13)) || ((28 <=? n) && (n <=? 32))
  || (n =? 133) || (n =? 160).

Definition is_digit (c : ascii) : bool :=
  let n := code c in (48 <=? n) && (n <=? 57).

Definition newline : ascii := ascii_of_nat 10.
Definition comma : ascii := ","%char.
Definition NL : string := String newline "".

(** [s.lstrip()], [s.rstrip()] and [s.strip()]. *)
Fixpoint lstrip (s : string) : string :=
  match s with
  | "" => ""
  | String c s' => if is_space c then lstrip s' else s
  end.

Fixpoint rstrip (s : string) : string :=
  match s with
  | "" => ""
  | String c s' =>
      match rstrip s' with
      | "" => if is_space c then "" else String c ""
      | t => String c t
      end
  end.

Definition strip (s : string) : string := lstrip (rstrip s).

(** The blanks that [int] and [float] allow around a number: the white
    space of ASCII and, of the code points from 128 to 255, the two that
    are white space.  The separators 28 to 31, which [strip] removes, are
    not among them. *)
Definition is_blank (c : ascii) : bool :=
  let n := code c in
  ((9 <=? n) && (n <=? 13)) || (n =? 32) || (n =? 133) || (n =? 160).

Fixpoint lstrip_blank (s : string) : string :=
  match s with
  | "" => ""
  | String c s' => if is_blank c then lstrip_blank s' else s
  end.

Fixpoint rstrip_blank (s : string) : string :=
  match s with
  | "" => ""
  | String c s' =>
      match rstrip_blank s' with
      | "" => if is_blank c then "" else String c ""
      | t => String c t
      end
  end.

Definition strip_blank (s : string) : string := lstrip_blank (rstrip_blank s).

(** [s.split(sep)] for a one-character separator: never an empty list. *)
Fixpoint split (sep : ascii) (s : string) : list string :=
  match s with
  | "" => [""]
  | String c s' =>
      if Ascii.eqb c sep then "" :: split sep s'
      else match split sep s' with
           | [] => [String c ""]
           | f :: fs => String c f :: fs
           end
  end.

(** [sep.join(fields)]. *)
Fixpoint join (sep : ascii) (fields : list string) : string :=
  match fields with
  | [] => ""
  | [f] => f
  | f :: fs => f +:+ String sep (join sep fs)
  end.

(** [s[i:j]] for indices [0 <= i]; out-of-range indices are clamped. *)
Fixpoint drop_chars (n : nat) (s : string) : string :=
  match n, s with
  | O, _ => s
  | S n', String _ s' => drop_chars n' s'
  | S _, "" => ""
  end.

Fixpoint take_chars (n : nat) (s : string) : string :=
  match n, s with
  | S n', String c s' => String c (take_chars n' s')
  | _, _ => ""
  end.

Definition slice (i j : nat) (s : string) : string :=
  take_chars (j - i) (drop_chars i s).

(** ** Text files

    A file open for reading is the list of the lines not yet read, each
    with its line terminator.  [file_lines] cuts the content of a file
    into these lines. *)

Definition file : Type := list string.

Fixpoint file_lines_from (cur : string) (content : string) : list string :=
  match content with
  | "" => match cur with "" => [] | _ => [cur] end
  | String c rest =>
      if Ascii.eqb c newline then (cur +:+ NL) :: file_lines_from "" rest
      else file_lines_from (cur +:+ String c "") rest
  end.

Definition file_lines (content : string) : file := file_lines_from "" content.

(** [f.readline()]: the next line, or the empty string at end of file. *)
Definition readline (f : file) : string * file :=
  match f with
  | [] => ("", [])
  | l :: f' => (l, f')
  end.

(** ** The reference-data loader *)

Section Loader.

(** [float_ok s] tells whether [float(s)] returns; when it does not it
    raises [ValueError].  The loader binds the converted numbers to a
    local, [data], that it never reads, so only this matters. *)
Variable float_ok : string → bool.

Definition py_float_check (s : string) : result unit :=
  if float_ok s then Return tt else Raise ValueError.

(** The header loop: [while line != '\n': line = airport_file.readline()]. *)
Fixpoint skip_header (fuel : nat) (line : string) (f : file) : option file :=
  match fuel with
  | O => None
  | S fuel' =>
      if String.eqb line NL then Some f
      else let '(line', f') := readline f in skip_header fuel' line' f'
  end.

(** Unpacking a list into the ten targets of the assignment. *)
Definition unpack10 (l : list string) : result (list string) :=
  if Nat.eqb (List.length l) 10 then Return l else Raise ValueError.

(** The body of the [try] for one line. *)
Definition load_line (line : string) (airport_data : gmap string value)
  : result (gmap string value) :=
  fields ← unpack10 (split comma (strip line));
  match fields with
  | [icao; name; lat; lon; dest_ceil; dest_vis;
     noAlt_ceil; noAlt_vis; alt_ceil; alt_vis] =>
      py_float_check lat;;
      py_float_check lon;;
      match airport_data !! icao with
      | None =>
          Return (<[icao := PyList [PyStr name; PyStr lat; PyStr lon;
                                    PyStr dest_ceil; PyStr dest_vis;
                                    PyStr noAlt_ceil; PyStr noAlt_vis;
                                    PyStr alt_ceil; PyStr alt_vis]]>
                    airport_data)
      | Some _ =>
          (* list.append() takes exactly one argument (9 given) *)
          Raise TypeError
      end
  | _ => Raise ValueError
  end.

(** [for line in airport_file: try: ... except ValueError: pass]. *)
Fixpoint load_records (lines : file) (airport_data : gmap string value)
  : result (gmap string value) :=
  match lines with
  | [] => Return airport_data
  | line :: rest =>
      match load_line line airport_data with
      | Return d => load_records rest d
      | Raise ValueError => load_records rest airport_data
      | Raise e => Raise e
      end
  end.

Definition read_airport_data (fuel : nat) (airport_file : file)
  : option (result (gmap string value)) :=
  let '(line, f) := readline airport_file in
  match skip_header fuel line f with
  | None => None
  | Some records => Some (load_records records ∅)
  end.

End Loader.

(** *** The text [float] accepts

    [float_syntax s] decides whether [s] is in the grammar of the
    language reference for [float(s)]: blanks around, a sign, then
    [inf], [infinity], [nan] in any case, or a decimal number with an
    optional exponent, single underscores allowed between digits. *)

Definition lower (c : ascii) : ascii :=
  let n := code c in
  if (65 <=? n) && (n <=? 90) then ascii_of_N (Z.to_N (n + 32)) else c.

Fixpoint lower_string (s : string) : string :=
  match s with
  | "" => ""
  | String c s' => String (lower c) (lower_string s')
  end.

(** After a digit: the rest once the digits and the underscores that
    join them are read. *)
Fixpoint after_digit (s : string) : string :=
  match s with
  | "" => ""
  | String c s' =>
      if is_digit c then after_digit s'
      else if Ascii.eqb c "_"
           then match s' with
                | String d s'' => if is_digit d then after_digit s'' else s
                | "" => s
                end
           else s
  end.

Definition digitpart (s : string) : option string :=
  match s with
  | String c s' => if is_digit c then Some (after_digit s') else None
  | "" => None
  end.

Definition number (s : string) : option string :=
  match digitpart s with
  | Some r =>
      match r with
      | String "." r' =>
          match digitpart r' with
          | Some r'' => Some r''
          | None => Some r'
          end
      | _ => Some r
      end
  | None =>
      match s with
      | String "." r' => digitpart r'
      | _ => None
      end
  end.

Definition unsigned (s : string) : string :=
  match s with
  | String "+" r | String "-" r => r
  | _ => s
  end.

Definition exponent (s : string) : option string :=
  match s with
  | String c r =>
      if Ascii.eqb (lower c) "e" then digitpart (unsigned r) else None
  | "" => None
  end.

Definition floatnumber (s : string) : bool :=
  match number s with
  | Some "" => true
  | Some r => match exponent r with Some "" => true | _ => false end
  | None => false
  end.

Definition float_syntax (s : string) : bool :=
  let body := unsigned (strip_blank s) in
  let word := lower_string body in
  String.eqb word "inf" || String.eqb word "infinity" || String.eqb word "nan"
  || floatnumber body.

(** ** Operations on values *)

(** [v == s] for a text literal [s]: only a [str] is equal to a [str]. *)
Definition eq_str (v : value) (s : string) : bool :=
  match v with
  | Scalar (PyStr t) => String.eqb t s
  | _ => false
  end.

Fixpoint nth_char (i : nat) (s : string) : option ascii :=
  match s, i with
  | "", _ => None
  | String c _, O => Some c
  | String _ s', S i' => nth_char i' s'
  end.

(** [v[i]] for an index [0 <= i]. *)
Definition getitem (v : value) (i : nat) : result scalar :=
  match v with
  | PyList l =>
      match nth_error l i with
      | Some x => Return x
      | None => Raise IndexError
      end
  | Scalar (PyStr s) =>
      match nth_char i s with
      | Some c => Return (PyStr (String c ""))
      | None => Raise IndexError
      end
  | Scalar (PyBytes b) =>
      match nth_char i b with
      | Some c => Return (PyInt (code c))
      | None => Raise IndexError
      end
  | Scalar (PyInt _) | Scalar (PyFloat _) => Raise TypeError
  end.

(** Order of text and of bytes: lexicographic on code points. *)
Definition str_gt (a b : string) : bool :=
  match String.compare a b with
  | Gt => true
  | _ => false
  end.

(** An integer against a floating-point number, exactly; [None] for NaN. *)
Definition Z_compare_float (n : Z) (f : float) : option comparison :=
  match Prim2SF f with
  | S754_nan => None
  | S754_zero _ => Some (n ?= 0)
  | S754_infinity s => Some (if s then Gt else Lt)
  | S754_finite s m e =>
      let v := if s then Z.neg m else Z.pos m in
      Some (if 0 <=? e then n ?= v * 2 ^ e else n * 2 ^ (- e) ?= v)
  end.

(** [a > b]: defined inside one type and between the two number types. *)
Definition gt (a b : scalar) : result bool :=
  match a, b with
  | PyStr s, PyStr t => Return (str_gt s t)
  | PyBytes s, PyBytes t => Return (str_gt s t)
  | PyInt n, PyInt m => Return (m <? n)
  | PyFloat f, PyFloat g => Return (PrimFloat.ltb g f)
  | PyInt n, PyFloat g =>
      Return (match Z_compare_float n g with Some Gt => true | _ => false end)
  | PyFloat f, PyInt m =>
      Return (match Z_compare_float m f with Some Lt => true | _ => false end)
  | _, _ => Raise TypeError
  end.

(** [for i in v]: the elements [v] yields. *)
Definition iter (v : value) : result (list scalar) :=
  match v with
  | PyList l => Return l
  | Scalar (PyStr s) =>
      Return ((λ c, PyStr (String c "")) <$> list_ascii_of_string s)
  | Scalar (PyBytes b) =>
      Return ((λ c, PyInt (code c)) <$> list_ascii_of_string b)
  | Scalar (PyInt _) | Scalar (PyFloat _) => Raise TypeError
  end.

(** [float(n)] for an integer [n]. *)
Definition float_of_int (n : Z) : result float :=
  match binary_normalize prec emax n 0 false with
  | S754_infinity _ => Raise OverflowError
  | sf => Return (SF2Prim sf)
  end.

(** [a + n] for an integer literal [n]. *)
Definition add_int (a : scalar) (n : Z) : result scalar :=
  match a with
  | PyInt m => Return (PyInt (m + n))
  | PyFloat f => g ← float_of_int n; Return (PyFloat (f + g)%float)
  | PyStr _ | PyBytes _ => Raise TypeError
  end.

(** The bounds of [v[i:j]] in a sequence of length [len]. *)
Definition clamp_index (len i : Z) : nat :=
  Z.to_nat (if i <? 0 then Z.max (i + len) 0 else Z.min i len).

Definition slice_list {A : Type} (i j : nat) (l : list A) : list A :=
  take (j - i) (drop i l).

(** [v[a:b]]: the bounds must be integers, [v] a sequence. *)
Definition getslice (v : value) (a b : scalar) : result value :=
  match a, b with
  | PyInt i, PyInt j =>
      match v with
      | PyList l =>
          let len := Z.of_nat (List.length l) in
          Return (PyList (slice_list (clamp_index len i) (clamp_index len j) l))
      | Scalar (PyStr s) =>
          let len := Z.of_nat (String.length s) in
          Return (Scalar (PyStr (slice (clamp_index len i) (clamp_index len j) s)))
      | Scalar (PyBytes s) =>
          let len := Z.of_nat (String.length s) in
          Return (Scalar (PyBytes (slice (clamp_index len i) (clamp_index len j) s)))
      | Scalar (PyInt _) | Scalar (PyFloat _) => Raise TypeError
      end
  | _, _ => Raise TypeError
  end.

(** ** The interval extractor *)

(** The loop [for i in string: if i == '/': place = i], on the elements
    still to visit; [place] and [i] are the two locals, [i] unbound
    ([None]) until the first iteration. *)
Fixpoint search_loop (elems : list scalar) (place : scalar) (i : option scalar)
  : scalar * option scalar :=
  match elems with
  | [] => (place, i)
  | x :: rest =>
      if eq_str x "/" then search_loop rest x (Some x)
      else search_loop rest place (Some x)
  end.

Definition search_string (string : value) : result value :=
  let place := PyInt 0 in
  elems ← iter string;
  let '(place, i) := search_loop elems place None in
  match i with
  | None => Raise UnboundLocalError
  | Some i =>
      lo ← add_int i 11;
      hi ← add_int i 20;
      group ← getslice string lo hi;
      Return group
  end.

(** ** The world: standard output and the network *)

(** What the program has printed and which addresses it has opened, the
    oldest first. *)
Record world : Type := World {
  stdout : list string;
  opened : list string
}.

(** A computation with effects: from a world to an outcome and a world. *)
Definition io (A : Type) : Type := world → result A * world.

#[global] Instance io_ret : MRet io := λ A a w, (Return a, w).
#[global] Instance io_bind : MBind io := λ A B k m w,
  match m w with
  | (Return a, w') => k a w'
  | (Raise e, w') => (Raise e, w')
  end.

(** [try: body except IOError: handler]. *)
Definition try_except_IOError {A : Type} (body handler : io A) : io A := λ w,
  match body w with
  | (Raise IOError, w') => handler w'
  | outcome => outcome
  end.

Definition print (line : string) : io unit := λ w,
  (Return tt, World (stdout w ++ [line]) (opened w)).

(** What the server does with a request: the connection fails, or it
    opens; an open stream delivers its content or fails while read, and
    closes or fails to. *)
Inductive remote : Type :=
| Unreachable
| Stream (content : option string) (closes : bool).

Record handle : Type := Handle {
  h_content : option string;
  h_closes : bool
}.

Section Fetcher.

(** The server, by address. *)
Variable net : string → remote.

Definition urlopen (url : string) : io handle := λ w,
  let w' := World (stdout w) (opened w ++ [url]) in
  match net url with
  | Unreachable => (Raise IOError, w')
  | Stream content closes => (Return (Handle content closes), w')
  end.

(** [fileHandle.readlines()]: the lines, as bytes, with their ends. *)
Definition readlines (h : handle) : io (list string) := λ w,
  match h_content h with
  | Some content => (Return (file_lines content), w)
  | None => (Raise IOError, w)
  end.

(** [fileHandle.read()]: the whole content, as bytes. *)
Definition read (h : handle) : io string := λ w,
  match h_content h with
  | Some content => (Return content, w)
  | None => (Raise IOError, w)
  end.

Definition close (h : handle) : io unit := λ w,
  if h_closes h then (Return tt, w) else (Raise IOError, w).

Definition cannot_open (urlStr : string) : string :=
  "Cannot open URL " +:+ urlStr +:+ " for reading".

Definition get_taf (icao : string) : io value :=
  let urlStr :=
    "ftp://tgftp.nws.noaa.gov/data/forecasts/taf/stations/" +:+ icao +:+ ".TXT" in
  taf ← try_except_IOError
           (fileHandle ← urlopen urlStr;
            taf ← readlines fileHandle;
            close fileHandle;;
            mret (PyList (PyBytes <$> taf)))
           (print (cannot_open urlStr);;
            mret (Scalar (PyStr "error")));
  mret taf.

Definition get_shorttaf (icao : string) : io value :=
  let urlStr :=
    "ftp://tgftp.nws.noaa.gov/data/forecasts/shorttaf/stations/" +:+ icao +:+ ".TXT" in
  shorttaf ← try_except_IOError
                (fileHandle ← urlopen urlStr;
                 shorttaf ← readlines fileHandle;
                 close fileHandle;;
                 mret (PyList (PyBytes <$> shorttaf)))
                (print (cannot_open urlStr);;
                 mret (Scalar (PyStr "error")));
  mret shorttaf.

Definition get_metar (icao : string) : io value :=
  let urlStr :=
    "ftp://tgftp.nws.noaa.gov/data/observations/metar/stations/" +:+ icao +:+ ".TXT" in
  metar ← try_except_IOError
             (fileHandle ← urlopen urlStr;
              metar ← read fileHandle;
              close fileHandle;;
              mret (Scalar (PyBytes metar)))
             (print (cannot_open urlStr);;
              mret (Scalar (PyStr "error")));
  mret metar.

(** A pure computation inside [io]. *)
Definition lift {A : Type} (r : result A) : io A := λ w, (r, w).

Definition get_latest_report (icao : string) : io value :=
  taf ← get_taf icao;
  shorttaf ← get_shorttaf icao;
  if eq_str taf "error" then mret shorttaf
  else if eq_str shorttaf "error" then mret taf
  else
    t0 ← lift (getitem taf 0);
    s0 ← lift (getitem shorttaf 0);
    later ← lift (gt t0 s0);
    if later : bool then mret taf else mret shorttaf.

End Fetcher.

(** ** The timestamp parser *)

(** [int(s)] for text [s] in base ten: blanks around, a sign, then digits,
    single underscores allowed between digits. *)
Inductive int_state : Type := AtStart | AfterDigit | AfterUnderscore.

Fixpoint int_digits (st : int_state) (acc : Z) (s : string) : option Z :=
  match s with
  | "" => match st with AfterDigit => Some acc | _ => None end
  | String c s' =>
      if is_digit c then int_digits AfterDigit (10 * acc + (code c - 48)) s'
      else if Ascii.eqb c "_"
           then match st with
                | AfterDigit => int_digits AfterUnderscore acc s'
                | _ => None
                end
           else None
  end.

Definition py_int (s : string) : result Z :=
  let t := strip_blank s in
  let '(negative, body) :=
    match t with
    | String "-" r => (true, r)
    | String "+" r => (false, r)
    | _ => (false, t)
    end in
  match int_digits AtStart 0 body with
  | Some n => Return (if negative then - n else n)
  | None => Raise ValueError
  end.

(** [datetime.datetime(year, month, day, hour, minute)]; the seconds and
    microseconds of the object are zero. *)
Record datetime : Type := Datetime {
  year : Z;
  month : Z;
  day : Z;
  hour : Z;
  minute : Z
}.

Definition is_leap (y : Z) : bool :=
  (y mod 4 =? 0) && (negb (y mod 100 =? 0) || (y mod 400 =? 0)).

Definition days_in_month (y m : Z) : Z :=
  if m =? 2 then (if is_leap y then 29 else 28)
  else if (m =? 4) || (m =? 6) || (m =? 9) || (m =? 11) then 30
  else 31.

Definition valid_datetime (y mo d h mi : Z) : bool :=
  (1 <=? y) && (y <=? 9999) && (1 <=? mo) && (mo <=? 12)
  && (1 <=? d) && (d <=? days_in_month y mo)
  && (0 <=? h) && (h <=? 23) && (0 <=? mi) && (mi <=? 59).

Definition new_datetime (y mo d h mi : Z) : result datetime :=
  if valid_datetime y mo d h mi then Return (Datetime y mo d h mi)
  else Raise ValueError.

Definition get_datetime (line : string) : result datetime :=
  year ← py_int (slice 0 4 line);
  month ← py_int (slice 5 7 line);
  day ← py_int (slice 8 10 line);
  hour ← py_int (slice 11 13 line);
  minute ← py_int (slice 14 16 line);
  date_time ← new_datetime year month day hour minute;
  Return date_time.

(** ** The distance calculator *)

Section Distance.

(** The platform's [sin], [cos] and [acos] on doubles. *)
Variables libm_sin libm_cos libm_acos : float → float.

(** [math.sin], [math.cos]: a domain error at an infinity. *)
Definition math_sin (x : float) : result float :=
  if is_infinity x then Raise ValueError else Return (libm_sin x).

Definition math_cos (x : float) : result float :=
  if is_infinity x then Raise ValueError else Return (libm_cos x).

(** [math.acos]: a domain error outside [-1, 1]. *)
Definition math_acos (x : float) : result float :=
  if (1 <? abs x)%float then Raise ValueError else Return (libm_acos x).

Definition math_pi : float := 0x1.921fb54442d18p+1%float.

(** The argument the function hands to [math.acos]. *)
Definition acos_argument (lat1 lon1 lat2 lon2 : float) : result float :=
  let lat1 := (lat1 * math_pi / 180)%float in
  let lon1 := (lon1 * math_pi / 180)%float in
  let lat2 := (lat2 * math_pi / 180)%float in
  let lon2 := (lon2 * math_pi / 180)%float in
  s1 ← math_sin lat1;
  s2 ← math_sin lat2;
  c1 ← math_cos lat1;
  c2 ← math_cos lat2;
  c3 ← math_cos (lon1 - lon2)%float;
  Return (s1 * s2 + c1 * c2 * c3)%float.

Definition compute_distance_latlon (lat1 lon1 lat2 lon2 : float)
  : result float :=
  x ← acos_argument lat1 lon1 lat2 lon2;
  a ← math_acos x;
  let distance := (a * 6371 * 0x1.147537ba8170bp-1)%float in
  Return distance.

End Distance.

(** * What the statements talk about *)

(** ** Predicates of the statements *)

Fixpoint has_char (c : ascii) (s : string) : bool :=
  match s with
  | "" => false
  | String d s' => Ascii.eqb d c || has_char c s'
  end.

(** Text that [strip] leaves as it is. *)
Definition trimmed (s : string) : Prop := strip s = s.

(** A line the loader cannot turn into a record. *)
Definition malformed (float_ok : string → bool) (line : string) : Prop :=
  let fields := split comma (strip line) in
  List.length fields ≠ 10%nat
  ∨ float_ok (nth 2 fields "") = false
  ∨ float_ok (nth 3 fields "") = false.


(** The record a line holds: its key and the nine stored fields, when the
    line has ten fields and both coordinates are accepted by [float]. *)
Definition record_of (float_ok : string → bool) (line : string)
  : option (string * value) :=
  match split comma (strip line) with
  | [icao; name; lat; lon; dest_ceil; dest_vis;
     noAlt_ceil; noAlt_vis; alt_ceil; alt_vis] =>
      if float_ok lat && float_ok lon
      then Some (icao, PyList [PyStr name; PyStr lat; PyStr lon;
                               PyStr dest_ceil; PyStr dest_vis;
                               PyStr noAlt_ceil; PyStr noAlt_vis;
                               PyStr alt_ceil; PyStr alt_vis])
      else None
  | _ => None
  end.

(** A record as a line of the file. *)
Definition record_line (fields : list string) : string :=
  join comma fields +:+ NL.

(** The sample of the specification and a file that repeats its record. *)
Definition ebcv_fields : list string :=
  ["EBCV"; "Chievres"; "50.583333"; "3.833333";
   "200"; "400"; "600"; "2000"; "600"; "2000"].

Definition sample_file : file :=
  ["HEADER LINE" +:+ NL; NL; record_line ebcv_fields].

Definition repeated_file : file :=
  ["HEADER LINE" +:+ NL; NL; record_line ebcv_fields; record_line ebcv_fields].

Definition eddk_fields : list string :=
  ["EDDK"; "Cologne"; "50.878365"; "7.1222224";
   "200"; "400"; "600"; "2000"; "600"; "2000"].

(** Lines that are no record: nine fields, eleven fields, a latitude that
    is no number; and a file that has them before a record. *)
Definition nine_field_line : string :=
  "EBCV,Chievres,50.583333,3.833333,200,400,600,2000,600" +:+ NL.

Definition eleven_field_line : string :=
  "EBCV,Chievres,50.583333,3.833333,200,400,600,2000,600,2000,EBBR" +:+ NL.

Definition no_latitude_line : string :=
  "EBCV,Chievres,north,3.833333,200,400,600,2000,600,2000" +:+ NL.

Definition patchy_file : file :=
  ["HEADER LINE" +:+ NL; NL; nine_field_line; eleven_field_line;
   no_latitude_line; record_line eddk_fields].

(** The three product kinds, the fetcher of each and the address it
    opens. *)
Inductive product : Type := Forecast | ShortForecast | Observation.

Definition fetch (net : string → remote) (p : product) : string → io value :=
  match p with
  | Forecast => get_taf net
  | ShortForecast => get_shorttaf net
  | Observation => get_metar net
  end.

Definition address (p : product) (icao : string) : string :=
  match p with
  | Forecast => "ftp://tgftp.nws.noaa.gov/data/forecasts/taf/stations/"
  | ShortForecast => "ftp://tgftp.nws.noaa.gov/data/forecasts/shorttaf/stations/"
  | Observation => "ftp://tgftp.nws.noaa.gov/data/observations/metar/stations/"
  end +:+ icao +:+ ".TXT".

(** An input/output failure: while opening, reading or closing. *)
Definition io_failure (r : remote) : bool :=
  match r with
  | Stream (Some _) true => false
  | _ => true
  end.

(** What a fetcher returns for the content of a resource. *)
Definition delivered (p : product) (content : string) : value :=
  match p with
  | Forecast | ShortForecast => PyList (PyBytes <$> file_lines content)
  | Observation => Scalar (PyBytes content)
  end.

(** Sample servers: one that answers both forecasts of an airport, one
    that fails on the standard forecast, one whose standard forecast is an
    empty file, and one that is down. *)
Definition standard_sample : string :=
  "2012/11/19 13:51" +:+ NL +:+ "TAF TAF EBCV 191141Z 1913/1922 19008KT" +:+ NL.

Definition short_sample : string :=
  "2012/11/18 19:45" +:+ NL +:+ "TAF EBCV 181541Z 1819/1907 10002KT" +:+ NL.

Definition net_both (url : string) : remote :=
  if String.eqb url (address Forecast "EBCV") then Stream (Some standard_sample) true
  else if String.eqb url (address ShortForecast "EBCV") then Stream (Some short_sample) true
  else Unreachable.

Definition net_short_only (url : string) : remote :=
  if String.eqb url (address ShortForecast "EBCV") then Stream (Some short_sample) true
  else Unreachable.

Definition net_empty_standard (url : string) : remote :=
  if String.eqb url (address Forecast "EBCV") then Stream (Some "") true
  else if String.eqb url (address ShortForecast "EBCV") then Stream (Some short_sample) true
  else Unreachable.

Definition net_down (url : string) : remote := Unreachable.

Definition quiet : world := World [] [].

(** The number a string of digits denotes, and the number written in
    [len] characters of [s] from offset [i]. *)
Fixpoint decimal (acc : Z) (s : string) : Z :=
  match s with
  | "" => acc
  | String c s' => decimal (10 * acc + (code c - 48)) s'
  end.

Definition number_at (i len : nat) (s : string) : Z :=
  decimal 0 (substring i len s).

Fixpoint all_digits (s : string) : bool :=
  match s with
  | "" => true
  | String c s' => is_digit c && all_digits s'
  end.

(** The sixteen characters [YYYY/MM/DD HH:MM]: digits at the offsets 0-3,
    5-6, 8-9, 11-12 and 14-15, the separators between them. *)
Definition timestamp_pattern (s : string) : bool :=
  (String.length s =? 16)%nat
  && all_digits (substring 0 4 s) && String.eqb (substring 4 1 s) "/"
  && all_digits (substring 5 2 s) && String.eqb (substring 7 1 s) "/"
  && all_digits (substring 8 2 s) && String.eqb (substring 10 1 s) " "
  && all_digits (substring 11 2 s) && String.eqb (substring 13 1 s) ":"
  && all_digits (substring 14 2 s).

(** The example of the docstring of [search_string], and the header line
    of the docstring of [get_taf]. *)
Definition docstring_line : string :=
  "TAF TAF EBCV 051615Z 0519/0607 30005KT 8000 BKN015 " +:+ NL.

Definition forecast_line : string :=
  "TAF EBCV 181541Z 1819/1907 10002KT 9999 FEW017 SCT030 " +:+ NL.

(** Latitude 8 degrees in radians as the function computes it, and the
    doubles nearest to its sine and cosine. *)
Definition lat8_rad : float := 0x1.1df46a2529d39p-3%float.
Definition lat8_sin : float := 0x1.1d06c968d9e19p-3%float.
Definition lat8_cos : float := 0x1.fb046a930947ap-1%float.

(** A table of [sin] and [cos] with these entries. *)
Definition table_sin (x : float) : float := lat8_sin.
Definition table_cos (x : float) : float :=
  if PrimFloat.eqb x 0 then 1%float else lat8_cos.
Definition table_acos (x : float) : float := 0%float.
Definition flat_cos (x : float) : float := 1%float.


(** * The rest of the module *)

(** ** Two more exceptions

    [KeyError] and [UnicodeDecodeError] come on top of the exceptions
    above: an [outcome] is a return or one of all these. *)

Inductive raised : Type :=
| Builtin (e : exn)
| KeyError
| UnicodeDecodeError.

Inductive outcome (A : Type) : Type :=
| Returns (a : A)
| Raises (e : raised).

Arguments Returns {A} a.
Arguments Raises {A} e.

#[global] Instance outcome_ret : MRet outcome := @Returns.
#[global] Instance outcome_bind : MBind outcome := λ A B k r,
  match r with
  | Returns a => k a
  | Raises e => Raises e
  end.

Definition of_result {A : Type} (r : result A) : outcome A :=
  match r with
  | Return a => Returns a
  | Raise e => Raises (Builtin e)
  end.

Ltac run_outcome := unfold mbind, outcome_bind; cbv beta iota.

(** ** Local files *)

Section Files.

Variable float_ok : string → bool.

(** What [open(filename, 'r')] finds: the lines of the file, or nothing
    when the file cannot be opened, and [open] raises [IOError]. *)
Variable disk : string → option file.

(** [held] lists the files that are open, the latest first. *)
Definition process_file (fuel : nat) (filename : string) (held : list string)
  : option (result (gmap string value) * list string) :=
  match disk filename with
  | None => Some (Raise IOError, held)
  | Some input_file =>
      let held := filename :: held in
      match read_airport_data float_ok fuel input_file with
      | None => None
      | Some (Raise e) => Some (Raise e, held)
      | Some (Return data) =>
          (* input_file.close() *)
          Some (Return data, tail held)
      end
  end.

End Files.

(** ** The distance between two airports *)

Section DistanceByIdentifier.

Variables libm_sin libm_cos libm_acos : float → float.

(** [float(s)] for text and for bytes: the number, or nothing when
    [float] raises [ValueError]. *)
Variables str_float bytes_float : string → option float.

(** [float(x)]. *)
Definition py_float (x : scalar) : result float :=
  match x with
  | PyFloat f => Return f
  | PyInt n => float_of_int n
  | PyStr s =>
      match str_float s with
      | Some f => Return f
      | None => Raise ValueError
      end
  | PyBytes b =>
      match bytes_float b with
      | Some f => Return f
      | None => Raise ValueError
      end
  end.

(** [data[key]]. *)
Definition dict_getitem (data : gmap string value) (key : string)
  : outcome value :=
  match data !! key with
  | Some v => Returns v
  | None => Raises KeyError
  end.

(** [float(data[key][i])]. *)
Definition float_field (data : gmap string value) (key : string) (i : nat)
  : outcome float :=
  record ← dict_getitem data key;
  field ← of_result (getitem record i);
  of_result (py_float field).

Definition compute_distance_icao (icao1 icao2 : string)
  (data : gmap string value) : outcome float :=
  lat1 ← float_field data icao1 1;
  lon1 ← float_field data icao1 2;
  lat2 ← float_field data icao2 1;
  lon2 ← float_field data icao2 2;
  distance ← of_result
    (compute_distance_latlon libm_sin libm_cos libm_acos lat1 lon1 lat2 lon2);
  Returns distance.

(** Whether [float] accepts a text. *)
Definition accepted (s : string) : bool :=
  match str_float s with
  | Some _ => true
  | None => false
  end.

(** The coordinates a mapping holds for an identifier: the numbers that
    the texts at the indices 1 and 2 of its record denote. *)
Definition coordinates (data : gmap string value) (key : string)
  : option (float * float) :=
  match data !! key with
  | Some (PyList (_ :: PyStr lat :: PyStr lon :: _)) =>
      match str_float lat, str_float lon with
      | Some x, Some y => Some (x, y)
      | _, _ => None
      end
  | _ => None
  end.

End DistanceByIdentifier.


(** ** Decoding a line

    Text that [bytes.decode] produces can hold any code point: it is a
    list of numbers. *)

Definition byte_values (b : string) : list Z :=
  code <$> list_ascii_of_string b.

Definition continuation (b : Z) : bool := (128 <=? b) && (b <=? 191).

(** The second byte of a sequence of three or of four: no overlong form,
    no surrogate, nothing above U+10FFFF. *)
Definition second_of_three (b0 b1 : Z) : bool :=
  if b0 =? 224 then (160 <=? b1) && (b1 <=? 191)
  else if b0 =? 237 then (128 <=? b1) && (b1 <=? 159)
  else continuation b1.

Definition second_of_four (b0 b1 : Z) : bool :=
  if b0 =? 240 then (144 <=? b1) && (b1 <=? 191)
  else if b0 =? 244 then (128 <=? b1) && (b1 <=? 143)
  else continuation b1.

(** [bytes.decode(b)]: UTF-8, strict; [None] is [UnicodeDecodeError]. *)
Fixpoint utf8_decode (bs : list Z) : option (list Z) :=
  match bs with
  | [] => Some []
  | b0 :: r0 =>
      if b0 <? 128 then cons b0 <$> utf8_decode r0
      else if (194 <=? b0) && (b0 <=? 223) then
        match r0 with
        | b1 :: r1 =>
            if continuation b1
            then cons ((b0 - 192) * 64 + (b1 - 128)) <$> utf8_decode r1
            else None
        | _ => None
        end
      else if (224 <=? b0) && (b0 <=? 239) then
        match r0 with
        | b1 :: b2 :: r2 =>
            if second_of_three b0 b1 && continuation b2
            then cons ((b0 - 224) * 4096 + (b1 - 128) * 64 + (b2 - 128))
                   <$> utf8_decode r2
            else None
        | _ => None
        end
      else if (240 <=? b0) && (b0 <=? 244) then
        match r0 with
        | b1 :: b2 :: b3 :: r3 =>
            if second_of_four b0 b1 && continuation b2 && continuation b3
            then cons ((b0 - 240) * 262144 + (b1 - 128) * 4096
                       + (b2 - 128) * 64 + (b3 - 128))
                   <$> utf8_decode r3
            else None
        | _ => None
        end
      else None
  end.

(** [str.isspace] on every code point. *)
Definition text_space (c : Z) : bool :=
  ((9 <=? c) && (c <=? 13)) || ((28 <=? c) && (c <=? 32))
  || (c =? 133) || (c =? 160) || (c =? 5760)
  || ((8192 <=? c) && (c <=? 8202)) || (c =? 8232) || (c =? 8233)
  || (c =? 8239) || (c =? 8287) || (c =? 12288).

Fixpoint text_lstrip (t : list Z) : list Z :=
  match t with
  | [] => []
  | c :: t' => if text_space c then text_lstrip t' else t
  end.

Fixpoint text_rstrip (t : list Z) : list Z :=
  match t with
  | [] => []
  | c :: t' =>
      match text_rstrip t' with
      | [] => if text_space c then [] else [c]
      | r => c :: r
      end
  end.

Definition text_strip (t : list Z) : list Z := text_lstrip (text_rstrip t).

(** [bytes.decode(line)] wants a [bytes] object. *)
Definition process_line (line : value) : outcome (list Z) :=
  match line with
  | Scalar (PyBytes b) =>
      match utf8_decode (byte_values b) with
      | Some text => Returns (text_strip text)
      | None => Raises UnicodeDecodeError
      end
  | _ => Raises (Builtin TypeError)
  end.

(** * What the further statements talk about *)

(** The records of the well-formed lines among [lines], in their order. *)
Definition records_of (float_ok : string → bool) (lines : list string)
  : list (string * value) :=
  omap (record_of float_ok) lines.

(** [float] on the coordinates of the two sample records, and on no
    other text. *)
Definition sample_float (s : string) : option float :=
  if String.eqb s "50.583333" then Some 0x1.94aaaa7ded6bbp+5%float
  else if String.eqb s "3.833333" then Some 0x1.eaaaa7ded6ba9p+1%float
  else if String.eqb s "50.878365" then Some 0x1.9706e43aa79bcp+5%float
  else if String.eqb s "7.1222224" then Some 0x1.c7d27de6b5ac2p+2%float
  else None.

(** The platform between the two sample airports: the doubles that
    [sin], [cos] and [acos] return at the arguments that the distance
    between EBCV and EDDK needs, in either order.  The latitudes in
    radians, the magnitude of the difference of the longitudes, and the
    argument of [acos] are the doubles the function computes; [cos]
    looks at the magnitude of its argument.  Elsewhere [sin] is 0, [cos]
    is 1 and [acos] is 0. *)
Definition ebcv_lat_rad : float := 0x1.c4045a421ab7cp-1%float.
Definition eddk_lat_rad : float := 0x1.c6a7476ac57ffp-1%float.
Definition lon_gap_rad : float := 0x1.d63c9c955e9p-5%float.

Definition sample_sin (x : float) : float :=
  if (x =? ebcv_lat_rad)%float then 0x1.8b8b8794ee3cdp-1%float
  else if (x =? eddk_lat_rad)%float then 0x1.8d36bbbcbc3cfp-1%float
  else 0%float.

Definition sample_cos (x : float) : float :=
  let a := abs x in
  if (a =? ebcv_lat_rad)%float then 0x1.4518db6d7f14dp-1%float
  else if (a =? eddk_lat_rad)%float then 0x1.430e57aa13e97p-1%float
  else if (a =? lon_gap_rad)%float then 0x1.ff281e8616cb8p-1%float
  else 1%float.

Definition sample_acos (x : float) : float :=
  if (x =? 0x1.ffa7c5c254a13p-1)%float then 0x1.2c975c4f0b8e8p-5%float
  else 0%float.

(** The distance between the two airports, 126.22721898755394. *)
Definition ebcv_eddk_distance : float := 0x1.f8e8ac18224c3p+6%float.

(** The mapping of the docstring of [read_airport_data], as a file. *)
Definition two_airports : file :=
  ["HEADER LINE" +:+ NL; NL; record_line ebcv_fields; record_line eddk_fields].

Definition two_airports_data : gmap string value :=
  {[ "EBCV" := PyList (PyStr <$> tail ebcv_fields);
     "EDDK" := PyList (PyStr <$> tail eddk_fields) ]}.

(** Bytes below 128. *)
Fixpoint is_ascii (b : string) : bool :=
  match b with
  | "" => true
  | String c b' => (code c <? 128) && is_ascii b'
  end.

(** The example of the docstring of [process_line]. *)
Definition amendment_line : string :=
  "      AMDS AFT 2710 NEXT 2804" +:+ NL.

(** A byte that cannot start a character. *)
Definition stray_byte (c : ascii) : bool :=
  ((128 <=? code c) && (code c <? 194)) || (245 <=? code c).

(** A line with a degree sign as Latin-1 writes it, the byte 176. *)
Definition latin1_line : string :=
  "TEMP 12" +:+ String (ascii_of_nat 176) ("C" +:+ NL).

(** A line as [readlines] cuts it: not empty, with no line end before
    its last byte; [ends_line] when that last byte is the line end. *)
Fixpoint one_line (l : string) : bool :=
  match l with
  | "" => false
  | String c "" => true
  | String c rest => negb (Ascii.eqb c newline) && one_line rest
  end.

Fixpoint ends_line (l : string) : bool :=
  match l with
  | "" => false
  | String c "" => Ascii.eqb c newline
  | String _ rest => ends_line rest
  end.

(** The five numbers of a stamp [YYYY/MM/DD HH:MM], and the order of two
    such lists as dates: by year, then month, day, hour and minute. *)
Definition stamp_fields (s : string) : list Z :=
  [number_at 0 4 s; number_at 5 2 s; number_at 8 2 s;
   number_at 11 2 s; number_at 14 2 s].

Fixpoint later_than (a b : list Z) : bool :=
  match a, b with
  | x :: a', y :: b' => (y <? x) || ((x =? y) && later_than a' b')
  | _, _ => false
  end.

(** The offsets of a line that [get_datetime] reads. *)
Definition stamp_offsets : list nat := [0; 1; 2; 3; 5; 6; 8; 9; 11; 12; 14; 15]%nat.

(** * Properties *)

(** ** Strings *)

Lemma split_no_sep (sep : ascii) (f : string) :
  has_char sep f = false → split sep f = [f].
Proof.
  induction f as [|c f IH]; simpl; [done|].
  intros [Hc Hf]%orb_false_elim.
  rewrite Hc, (IH Hf). done.
Qed.

Lemma split_app_sep (sep : ascii) (f r : string) :
  has_char sep f = false →
  split sep (f +:+ String sep r) = f :: split sep r.
Proof.
  induction f as [|c f IH]; simpl.
  - intros _. by rewrite Ascii.eqb_refl.
  - intros [Hc Hf]%orb_false_elim. rewrite Hc, (IH Hf). done.
Qed.

Lemma split_join (sep : ascii) (fields : list string) :
  fields ≠ [] →
  Forall (λ f, has_char sep f = false) fields →
  split sep (join sep fields) = fields.
Proof.
  induction fields as [|f fs IH]; [done|].
  intros _ Hall. inversion Hall as [|? ? Hf Hfs]; subst.
  destruct fs as [|g fs].
  - simpl. by apply split_no_sep.
  - change (join sep (f :: g :: fs)) with (f +:+ String sep (join sep (g :: fs))).
    rewrite split_app_sep by done. f_equal. by apply IH.
Qed.

Lemma rstrip_app_newline (s : string) : rstrip (s +:+ NL) = rstrip s.
Proof.
  induction s as [|c s IH]; simpl; [done|]. by rewrite IH.
Qed.

Lemma strip_line (s : string) : trimmed s → strip (s +:+ NL) = s.
Proof.
  unfold trimmed, strip. by rewrite rstrip_app_newline.
Qed.

Lemma take_chars_all (n : nat) (s : string) :
  (String.length s ≤ n)%nat → take_chars n s = s.
Proof.
  revert n. induction s as [|c s IH]; intros [|n] Hn; cbn in *;
    try done; try lia.
  f_equal. apply IH. lia.
Qed.

Lemma drop_chars_all (n : nat) (s : string) :
  (String.length s ≤ n)%nat → drop_chars n s = "".
Proof.
  revert n. induction s as [|c s IH]; intros [|n] Hn; cbn in *; try done; try lia.
  apply IH. lia.
Qed.

Lemma length_drop_chars (n : nat) (s : string) :
  String.length (drop_chars n s) = (String.length s - n)%nat.
Proof.
  revert n. induction s as [|c s IH]; intros [|n]; cbn; done.
Qed.

(** Clamping the bounds to the length, as Python does, changes nothing
    for [slice]. *)
Lemma slice_clamped (i j : nat) (s : string) :
  let len := Z.of_nat (String.length s) in
  slice (clamp_index len (Z.of_nat i)) (clamp_index len (Z.of_nat j)) s
  = slice i j s.
Proof.
  intros len. unfold clamp_index, slice.
  rewrite !(proj2 (Z.ltb_ge _ 0)) by lia.
  replace (Z.to_nat (Z.min (Z.of_nat i) len)) with (Nat.min i (String.length s)) by lia.
  replace (Z.to_nat (Z.min (Z.of_nat j) len)) with (Nat.min j (String.length s)) by lia.
  destruct (Nat.le_gt_cases i (String.length s)) as [Hi|Hi].
  - rewrite (Nat.min_l i) by done.
    destruct (Nat.le_gt_cases j (String.length s)) as [Hj|Hj].
    + by rewrite (Nat.min_l j).
    + rewrite (Nat.min_r j) by lia.
      rewrite !take_chars_all; [done|rewrite length_drop_chars; lia..].
  - rewrite (Nat.min_r i) by lia.
    rewrite !drop_chars_all by lia. by destruct (_ - _)%nat, (_ - _)%nat.
Qed.

(** ** The loader *)

Section LoaderFacts.

Variable float_ok : string → bool.

Lemma read_step_nil (fuel : nat) :
  read_airport_data float_ok (S fuel) [] = read_airport_data float_ok fuel [].
Proof. reflexivity. Qed.

Lemma read_step_cons (fuel : nat) (line : string) (f : file) :
  line ≠ NL →
  read_airport_data float_ok (S fuel) (line :: f)
  = read_airport_data float_ok fuel f.
Proof.
  intros Hne%String.eqb_neq. unfold read_airport_data. simpl.
  rewrite Hne. by destruct (readline f).
Qed.

Lemma read_header (fuel : nat) (header records : list string) :
  Forall (λ l, l ≠ NL) header →
  read_airport_data float_ok fuel (header ++ NL :: records)
  = if decide (List.length header < fuel)%nat
    then Some (load_records float_ok records ∅) else None.
Proof.
  intros Hh. revert fuel.
  induction Hh as [|line header Hline _ IH]; intros [|fuel]; try done.
  cbn [app List.length]. rewrite read_step_cons, IH by done.
  repeat case_decide; done || lia.
Qed.

Lemma read_no_blank (fuel : nat) (f : file) :
  ¬ In NL f → read_airport_data float_ok fuel f = None.
Proof.
  revert f. induction fuel as [|fuel IH]; intros f Hf.
  - by destruct f.
  - destruct f as [|line f].
    + rewrite read_step_nil. by apply IH.
    + rewrite read_step_cons by (intros ->; apply Hf; by left).
      apply IH. intros H. apply Hf. by right.
Qed.

Lemma first_blank (f : file) :
  In NL f →
  ∃ header records, f = header ++ NL :: records ∧ Forall (λ l, l ≠ NL) header.
Proof.
  intros (header & records & -> & Hh)%list_elem_of_In%list_elem_of_split_l.
  exists header, records. split; [done|].
  apply Forall_forall. intros l Hl ->. done.
Qed.

Lemma load_line_malformed (line : string) (d : gmap string value) :
  malformed float_ok line → load_line float_ok line d = Raise ValueError.
Proof.
  unfold malformed, load_line, unpack10.
  destruct (Nat.eqb_spec (List.length (split comma (strip line))) 10) as [Hlen|]; [|done].
  destruct (split comma (strip line))
    as [|f0 [|f1 [|f2 [|f3 [|f4 [|f5 [|f6 [|f7 [|f8 [|f9 [|? ?]]]]]]]]]]];
    try discriminate Hlen.
  cbn. unfold py_float_check.
  intros [?|[->| Hlon]]; [done|done|].
  rewrite Hlon. by destruct (float_ok f2).
Qed.

Lemma load_records_skip (bad : string) (pre post : list string)
  (d : gmap string value) :
  malformed float_ok bad →
  load_records float_ok (pre ++ bad :: post) d
  = load_records float_ok (pre ++ post) d.
Proof.
  intros Hbad. revert d. induction pre as [|line pre IH]; intros d; simpl.
  - by rewrite load_line_malformed.
  - destruct (load_line float_ok line d) as [d'|[]]; by rewrite ?IH.
Qed.

End LoaderFacts.

(** Nine fields, eleven fields and a latitude that is no number are all
    passed over, and the record after them is loaded. *)
Example read_airport_data_patchy :
  read_airport_data float_syntax 2 patchy_file
  = Some (Return {[ "EDDK" := PyList [PyStr "Cologne"; PyStr "50.878365";
                                      PyStr "7.1222224"; PyStr "200";
                                      PyStr "400"; PyStr "600"; PyStr "2000";
                                      PyStr "600"; PyStr "2000"] ]}).
Proof. by vm_compute. Qed.

(** C10.  The loader terminates, returning or raising, exactly when its
    source has a blank line, that is a line equal to the newline string.
    Without one the header loop reads on for ever, past the end of the
    source where [readline] yields the empty string: no amount of fuel
    gives an outcome. *)
Theorem read_airport_data_terminates_iff (float_ok : string → bool) (f : file) :
  (∃ fuel, read_airport_data float_ok fuel f ≠ None) ↔ In NL f.
Proof.
  split.
  - intros [fuel Hrun]. destruct (decide (NL ∈ f)) as [Hin|Hout].
    + by apply list_elem_of_In.
    + contradict Hrun. apply read_no_blank. by rewrite <- list_elem_of_In.
  - intros (header & records & -> & Hh)%first_blank.
    exists (S (List.length header)). rewrite read_header by done.
    case_decide; [done|lia].
Qed.

Section LoaderRecords.

Variable float_ok : string → bool.

Lemma load_line_record (line : string) (d : gmap string value) :
  load_line float_ok line d
  = match record_of float_ok line with
    | None => Raise ValueError
    | Some (icao, fields) =>
        match d !! icao with
        | None => Return (<[icao := fields]> d)
        | Some _ => Raise TypeError
        end
    end.
Proof.
  unfold load_line, record_of, unpack10, py_float_check.
  destruct (split comma (strip line))
    as [|f0 [|f1 [|f2 [|f3 [|f4 [|f5 [|f6 [|f7 [|f8 [|f9 [|? ?]]]]]]]]]]];
    try reflexivity.
  cbn. by destruct (float_ok f2), (float_ok f3).
Qed.

Lemma record_of_line
  (icao name lat lon dest_ceil dest_vis noAlt_ceil noAlt_vis alt_ceil alt_vis
     : string) :
  let fields := [icao; name; lat; lon; dest_ceil; dest_vis;
                 noAlt_ceil; noAlt_vis; alt_ceil; alt_vis] in
  Forall (λ f, has_char comma f = false) fields →
  trimmed (join comma fields) →
  float_ok lat = true →
  float_ok lon = true →
  record_of float_ok (record_line fields)
  = Some (icao, PyList [PyStr name; PyStr lat; PyStr lon;
                        PyStr dest_ceil; PyStr dest_vis;
                        PyStr noAlt_ceil; PyStr noAlt_vis;
                        PyStr alt_ceil; PyStr alt_vis]).
Proof.
  intros fields Hcommas Htrim Hlat Hlon.
  unfold record_of, record_line.
  rewrite strip_line, split_join by done.
  subst fields. cbn. by rewrite Hlat, Hlon.
Qed.

(** The loop raises nothing but [TypeError], and never forgets a key. *)
Lemma load_line_raises (line : string) (d : gmap string value) (e : exn) :
  load_line float_ok line d = Raise e → e = ValueError ∨ e = TypeError.
Proof.
  rewrite load_line_record.
  destruct (record_of float_ok line) as [[icao fields]|]; [|naive_solver].
  destruct (d !! icao); naive_solver.
Qed.

Lemma load_line_keeps (line : string) (d d' : gmap string value) (k : string) :
  load_line float_ok line d = Return d' → is_Some (d !! k) → is_Some (d' !! k).
Proof.
  rewrite load_line_record.
  destruct (record_of float_ok line) as [[icao fields]|]; [|done].
  destruct (d !! icao) eqn:Hd; [done|].
  intros [= <-] Hk. rewrite lookup_insert. case_decide; [done|]. done.
Qed.

Lemma load_records_seen (lines : list string) (d : gmap string value)
  (line : string) (icao : string) (fields : value) :
  In line lines →
  record_of float_ok line = Some (icao, fields) →
  is_Some (d !! icao) →
  load_records float_ok lines d = Raise TypeError.
Proof.
  intros Hin Hrec. revert d Hin.
  induction lines as [|l lines IH]; intros d Hin Hseen; [done|].
  simpl. destruct Hin as [->|Hin].
  - rewrite load_line_record, Hrec. by destruct Hseen as [v ->].
  - destruct (load_line float_ok l d) as [d'|e] eqn:Hl.
    + apply IH; [done|]. by eapply load_line_keeps.
    + destruct (load_line_raises _ _ _ Hl) as [-> | ->]; [by apply IH|done].
Qed.

Lemma load_records_repeated (pre rest : list string) (d : gmap string value)
  (first second : string) (icao : string) (fields fields' : value) :
  record_of float_ok first = Some (icao, fields) →
  record_of float_ok second = Some (icao, fields') →
  In second rest →
  load_records float_ok (pre ++ first :: rest) d = Raise TypeError.
Proof.
  intros Hfirst Hsecond Hin. revert d.
  induction pre as [|l pre IH]; intros d; simpl.
  - rewrite load_line_record, Hfirst.
    destruct (d !! icao) eqn:Hd; [done|].
    eapply load_records_seen; [done..|]. by rewrite lookup_insert_eq.
  - destruct (load_line float_ok l d) as [d'|e] eqn:Hl; [done|].
    by destruct (load_line_raises _ _ _ Hl) as [-> | ->].
Qed.

End LoaderRecords.

(** C2, amended.  On a header of any number of non-blank lines, a blank
    line, and one well-formed record of ten fields (no comma inside a
    field, no blank at either end of the record, latitude and longitude
    accepted by [float]), the loader returns a mapping with exactly one
    entry, keyed by the identifier of the record, whose value is the list
    of the other nine fields, each of them kept as the text it was given,
    latitude and longitude included. *)
Theorem read_airport_data_single_record
  (float_ok : string → bool) (fuel : nat) (header : list string)
  (icao name lat lon dest_ceil dest_vis noAlt_ceil noAlt_vis alt_ceil alt_vis
     : string) :
  Forall (λ l, l ≠ NL) header →
  (List.length header < fuel)%nat →
  Forall (λ f, has_char comma f = false)
    [icao; name; lat; lon; dest_ceil; dest_vis;
     noAlt_ceil; noAlt_vis; alt_ceil; alt_vis] →
  trimmed (join comma [icao; name; lat; lon; dest_ceil; dest_vis;
                       noAlt_ceil; noAlt_vis; alt_ceil; alt_vis]) →
  float_ok lat = true →
  float_ok lon = true →
  read_airport_data float_ok fuel
    (header ++ [NL; record_line [icao; name; lat; lon; dest_ceil; dest_vis;
                                 noAlt_ceil; noAlt_vis; alt_ceil; alt_vis]])
  = Some (Return {[ icao := PyList [PyStr name; PyStr lat; PyStr lon;
                                    PyStr dest_ceil; PyStr dest_vis;
                                    PyStr noAlt_ceil; PyStr noAlt_vis;
                                    PyStr alt_ceil; PyStr alt_vis] ]}).
Proof.
  intros Hheader Hfuel Hcommas Htrim Hlat Hlon.
  rewrite read_header by done. rewrite decide_True by done.
  cbn [load_records]. rewrite load_line_record.
  rewrite (record_of_line float_ok) by done.
  rewrite lookup_empty. by rewrite insert_empty.
Qed.

(** The sample of the specification is such an input. *)
Lemma read_airport_data_single_record_witness :
  read_airport_data float_syntax 2 sample_file
  = Some (Return {[ "EBCV" := PyList [PyStr "Chievres"; PyStr "50.583333";
                                      PyStr "3.833333"; PyStr "200";
                                      PyStr "400"; PyStr "600"; PyStr "2000";
                                      PyStr "600"; PyStr "2000"] ]}).
Proof.
  apply (read_airport_data_single_record float_syntax 2 ["HEADER LINE" +:+ NL]
           "EBCV" "Chievres" "50.583333" "3.833333"
           "200" "400" "600" "2000" "600" "2000").
  - repeat constructor. discriminate.
  - simpl. lia.
  - repeat constructor.
  - reflexivity.
  - reflexivity.
  - reflexivity.
Defined.

(** C2 as first stated does not hold: on the sample of the specification
    the stored latitude and longitude are the texts ["50.583333"] and
    ["3.833333"], and whatever the fuel no two floating-point numbers make
    the outcome the mapping that C2 announces. *)
Lemma read_airport_data_stores_text :
  read_airport_data float_syntax 2 sample_file
  = Some (Return {[ "EBCV" := PyList [PyStr "Chievres"; PyStr "50.583333";
                                      PyStr "3.833333"; PyStr "200";
                                      PyStr "400"; PyStr "600"; PyStr "2000";
                                      PyStr "600"; PyStr "2000"] ]})
  ∧ ∀ (fuel : nat) (lat lon : float),
      read_airport_data float_syntax fuel sample_file
      ≠ Some (Return {[ "EBCV" := PyList [PyStr "Chievres"; PyFloat lat;
                                          PyFloat lon; PyStr "200";
                                          PyStr "400"; PyStr "600";
                                          PyStr "2000"; PyStr "600";
                                          PyStr "2000"] ]}).
Proof.
  split; [by vm_compute|].
  intros fuel lat lon.
  change sample_file with (["HEADER LINE" +:+ NL] ++ [NL; record_line ebcv_fields]).
  rewrite read_header by (repeat constructor; discriminate).
  case_decide; [|done].
  intros Heq.
  apply (f_equal (λ r : option (result (gmap string value)),
                    match r with
                    | Some (Return m) => m !! "EBCV"
                    | _ => None
                    end)) in Heq.
  rewrite lookup_singleton_eq in Heq. vm_compute in Heq. discriminate Heq.
Qed.

(** C4.  The loader does not collapse repeated identifiers: as soon as two
    well-formed lines after the header carry the same identifier, it ends
    by raising [TypeError], from the call of [list.append] with nine
    arguments; no mapping is returned. *)
Theorem read_airport_data_repeated_key_raises
  (float_ok : string → bool) (fuel : nat) (pre rest : list string)
  (first second : string) (icao : string) (fields fields' : value) :
  In NL pre →
  record_of float_ok first = Some (icao, fields) →
  record_of float_ok second = Some (icao, fields') →
  In second rest →
  (List.length pre < fuel)%nat →
  read_airport_data float_ok fuel (pre ++ first :: rest) = Some (Raise TypeError).
Proof.
  intros (header & records & -> & Hh)%first_blank Hfirst Hsecond Hin Hfuel.
  rewrite <- app_assoc. cbn [app]. rewrite read_header by done.
  rewrite decide_True by (rewrite length_app in Hfuel; lia).
  f_equal. by eapply load_records_repeated.
Qed.

(** The sample record on two lines is such an input. *)
Lemma read_airport_data_repeated_key_witness :
  read_airport_data float_syntax 3 repeated_file = Some (Raise TypeError).
Proof.
  apply (read_airport_data_repeated_key_raises float_syntax 3
           ["HEADER LINE" +:+ NL; NL] [record_line ebcv_fields]
           (record_line ebcv_fields) (record_line ebcv_fields) "EBCV"
           (PyList (PyStr <$> tail ebcv_fields))
           (PyList (PyStr <$> tail ebcv_fields))).
  - right. by left.
  - reflexivity.
  - reflexivity.
  - by left.
  - simpl. lia.
Defined.

Section LoaderInvariant.

Variable float_ok : string → bool.

(** What the records loop returns holds the mapping it started from and,
    besides, exactly the records of the well-formed lines. *)
Lemma load_records_entries (lines : list string) (d d' : gmap string value)
  (k : string) (v : value) :
  load_records float_ok lines d = Return d' →
  d' !! k = Some v ↔
  d !! k = Some v ∨ ∃ line, In line lines ∧ record_of float_ok line = Some (k, v).
Proof.
  revert d. induction lines as [|l lines IH]; intros d; cbn [load_records].
  - intros [= ->]. split; [by left|]. by intros [?|(? & [] & _)].
  - rewrite load_line_record.
    destruct (record_of float_ok l) as [[icao fields]|] eqn:Hl.
    + destruct (d !! icao) eqn:Hd; [done|].
      intros Hrun. rewrite (IH _ Hrun), lookup_insert_Some.
      split.
      * intros [[[-> ->]|[_ ?]]|(line & ? & ?)]; [right|by left|right].
        -- exists l. split; [by left|done].
        -- exists line. split; [by right|done].
      * intros [Hk|(line & [->|Hin] & Hline)].
        -- left. right. split; [|done]. intros ->. congruence.
        -- left. left. rewrite Hl in Hline. by injection Hline as -> ->.
        -- right. by exists line.
    + intros Hrun. rewrite (IH _ Hrun). split.
      * intros [?|(line & ? & ?)]; [by left|right].
        exists line. split; [by right|done].
      * intros [?|(line & [->|Hin] & Hline)]; [by left|congruence|right].
        by exists line.
Qed.

End LoaderInvariant.

(** Whenever the loader returns a mapping, its entries are exactly the
    records of the well-formed lines that come after the first blank
    line: the identifier of the line as key, its nine other fields, as
    text, as value. *)
Theorem read_airport_data_entries
  (float_ok : string → bool) (fuel : nat) (header records : list string)
  (d : gmap string value) (k : string) (v : value) :
  Forall (λ l, l ≠ NL) header →
  read_airport_data float_ok fuel (header ++ NL :: records) = Some (Return d) →
  d !! k = Some v ↔
  ∃ line, In line records ∧ record_of float_ok line = Some (k, v).
Proof.
  intros Hh. rewrite read_header by done. case_decide; [|done].
  intros [= Hrun]. rewrite (load_records_entries _ _ _ _ _ _ Hrun).
  rewrite lookup_empty. split; [by intros [?|?]|by right].
Qed.

(** The file with three lines that are no record is such an input. *)
Lemma read_airport_data_entries_witness :
  ({[ "EDDK" := PyList (PyStr <$> tail eddk_fields) ]} : gmap string value)
    !! "EDDK" = Some (PyList (PyStr <$> tail eddk_fields))
  ↔ ∃ line, In line (tail (tail patchy_file))
            ∧ record_of float_syntax line
              = Some ("EDDK", PyList (PyStr <$> tail eddk_fields)).
Proof.
  apply (read_airport_data_entries float_syntax 2 ["HEADER LINE" +:+ NL]).
  - repeat constructor. discriminate.
  - by vm_compute.
Defined.

(** ** The fetchers *)

Section FetcherFacts.

Variable net : string → remote.

Lemma fetch_outcome (p : product) (icao : string) (w : world) :
  fetch net p icao w
  = match net (address p icao) with
    | Stream (Some content) true =>
        (Return (delivered p content),
         World (stdout w) (opened w ++ [address p icao]))
    | _ =>
        (Return (Scalar (PyStr "error")),
         World (stdout w ++ [cannot_open (address p icao)])
               (opened w ++ [address p icao]))
    end.
Proof.
  destruct p; cbn -[String.append cannot_open file_lines];
    unfold get_taf, get_shorttaf, get_metar, try_except_IOError, urlopen,
      readlines, read, close, print, mbind, io_bind, mret, io_ret;
    cbn -[String.append cannot_open file_lines];
    destruct (net _) as [|[content|] []]; reflexivity.
Qed.

Lemma fetch_returns (p : product) (icao : string) (w : world) :
  ∃ (v : value) (w' : world),
    fetch net p icao w = (Return v, w')
    ∧ opened w' = opened w ++ [address p icao].
Proof.
  rewrite fetch_outcome.
  destruct (net (address p icao)) as [|[content|] []]; by eexists _, _.
Qed.

End FetcherFacts.

Lemma str_gt_irrefl (a : string) : str_gt a a = false.
Proof.
  unfold str_gt. pose proof (String.compare_antisym a a) as H.
  destruct (String.compare a a); done.
Qed.

Lemma str_gt_total (a b : string) :
  str_gt a b = false → a = b ∨ str_gt b a = true.
Proof.
  unfold str_gt. rewrite (String.compare_antisym a b).
  destruct (String.compare b a) eqn:Hc; cbn; intros H; try done.
  - left. symmetry. by apply String.compare_eq_iff.
  - by right.
Qed.

(** C8.  Whatever the identifier and the product kind, the fetcher returns
    a value and never raises; when opening, reading or closing the
    resource fails, that value is the text ['error'], and when nothing
    fails it is not: the sentinel is the one signal of a failure the
    caller gets. *)
Theorem fetch_failure_is_sentinel
  (net : string → remote) (p : product) (icao : string) (w : world) :
  ∃ (v : value) (w' : world),
    fetch net p icao w = (Return v, w')
    ∧ (io_failure (net (address p icao)) = true → v = Scalar (PyStr "error"))
    ∧ (io_failure (net (address p icao)) = false → eq_str v "error" = false).
Proof.
  rewrite fetch_outcome.
  destruct (net (address p icao)) as [|[content|] []]; eexists _, _;
    (split; [reflexivity|]); split; try done.
  intros _. by destruct p.
Qed.

(** C1, amended.  The selector fetches the standard forecast and then the
    short one, each fetch returning a value, and opens their two
    addresses in that order.  It returns the short variant when the
    standard fetch gave the sentinel, even if the short one failed too;
    otherwise the standard variant when the short fetch gave the sentinel;
    otherwise, provided both variants have a first line, the standard
    variant when its first line is the greater in the order of bytes and
    the short variant when its first line is the greater or the two are
    equal.  What is returned is the fetched list itself, unmodified. *)
Theorem get_latest_report_selects
  (net : string → remote) (icao : string) (w : world) :
  ∃ (taf shorttaf : value) (w1 w2 : world),
    get_taf net icao w = (Return taf, w1)
    ∧ get_shorttaf net icao w1 = (Return shorttaf, w2)
    ∧ opened w2 = opened w ++ [address Forecast icao; address ShortForecast icao]
    ∧ (eq_str taf "error" = true →
       get_latest_report net icao w = (Return shorttaf, w2))
    ∧ (eq_str taf "error" = false → eq_str shorttaf "error" = true →
       get_latest_report net icao w = (Return taf, w2))
    ∧ (∀ (t s : string) (ts ss : list string),
         taf = PyList (PyBytes <$> t :: ts) →
         shorttaf = PyList (PyBytes <$> s :: ss) →
         (str_gt t s = true →
          get_latest_report net icao w = (Return taf, w2))
         ∧ (str_gt s t = true ∨ s = t →
            get_latest_report net icao w = (Return shorttaf, w2))).
Proof.
  destruct (fetch_returns net Forecast icao w) as (taf & w1 & Ht & Ho1).
  destruct (fetch_returns net ShortForecast icao w1) as (shorttaf & w2 & Hs & Ho2).
  cbn [fetch] in Ht, Hs.
  exists taf, shorttaf, w1, w2.
  assert (Hrun : get_latest_report net icao w
    = (if eq_str taf "error" then mret shorttaf
       else if eq_str shorttaf "error" then mret taf
       else t0 ← lift (getitem taf 0);
            s0 ← lift (getitem shorttaf 0);
            later ← lift (gt t0 s0);
            if later : bool then mret taf else mret shorttaf) w2).
  { unfold get_latest_report, mbind, io_bind at 1 2. by rewrite Ht, Hs. }
  split; [done|]. split; [done|].
  split; [by rewrite Ho2, Ho1, <- app_assoc|].
  rewrite Hrun. split; [by intros ->|]. split; [by intros -> ->|].
  intros t s ts ss -> ->.
  unfold mbind, io_bind, lift, mret, io_ret. cbn -[str_gt]. split.
  - by intros ->.
  - intros [Hgt| ->].
    + unfold str_gt in *. rewrite (String.compare_antisym t s).
      by destruct (String.compare s t).
    + by rewrite str_gt_irrefl.
Qed.

(** C1 as first stated does not hold for every identifier: when the
    standard forecast is an empty file, both fetches succeed, neither
    value is the sentinel, and the selector raises [IndexError] at
    [taf[0]] where C1 has it return a variant. *)
Lemma get_latest_report_empty_forecast :
  get_latest_report net_empty_standard "EBCV" quiet
  = (Raise IndexError,
     World [] [address Forecast "EBCV"; address ShortForecast "EBCV"]).
Proof. by vm_compute. Qed.

Example get_latest_report_standard_later :
  get_latest_report net_both "EBCV" quiet
  = (Return (PyList (PyBytes <$> file_lines standard_sample)),
     World [] [address Forecast "EBCV"; address ShortForecast "EBCV"]).
Proof. by vm_compute. Qed.

Example get_latest_report_standard_failed :
  get_latest_report net_short_only "EBCV" quiet
  = (Return (PyList (PyBytes <$> file_lines short_sample)),
     World [cannot_open (address Forecast "EBCV")]
           [address Forecast "EBCV"; address ShortForecast "EBCV"]).
Proof. by vm_compute. Qed.

Example get_latest_report_both_failed :
  get_latest_report net_down "EBCV" quiet
  = (Return (Scalar (PyStr "error")),
     World [cannot_open (address Forecast "EBCV");
            cannot_open (address ShortForecast "EBCV")]
           [address Forecast "EBCV"; address ShortForecast "EBCV"]).
Proof. by vm_compute. Qed.

(** ** The timestamp parser *)

Lemma digit_not_blank (c : ascii) : is_digit c = true → is_blank c = false.
Proof. unfold is_digit, is_blank. lia. Qed.

Lemma rstrip_blank_digits (s : string) :
  all_digits s = true → rstrip_blank s = s.
Proof.
  induction s as [|c s IH]; [done|]. cbn.
  intros [Hc Hs]%andb_prop. rewrite (IH Hs).
  destruct s; [|done]. by rewrite (digit_not_blank c Hc).
Qed.

Lemma strip_blank_digits (s : string) :
  all_digits s = true → strip_blank s = s.
Proof.
  intros Hs. unfold strip_blank. rewrite rstrip_blank_digits by done.
  destruct s as [|c s]; [done|]. cbn in *.
  apply andb_prop in Hs as [Hc _]. by rewrite (digit_not_blank c Hc).
Qed.

Lemma int_digits_decimal (s : string) (st : int_state) (acc : Z) :
  s ≠ "" → all_digits s = true → int_digits st acc s = Some (decimal acc s).
Proof.
  revert st acc. induction s as [|c s IH]; intros st acc Hne; [done|].
  cbn. intros [Hc Hs]%andb_prop. rewrite Hc.
  destruct s as [|d s]; [done|]. by apply IH.
Qed.

Lemma unsigned_digit (c : ascii) (s : string) :
  is_digit c = true →
  match String c s with
  | String "-" r => (true, r)
  | String "+" r => (false, r)
  | _ => (false, String c s)
  end = (false, String c s).
Proof.
  destruct c as [[] [] [] [] [] [] [] []]; try reflexivity;
    intros H; vm_compute in H; discriminate H.
Qed.

Lemma py_int_digits (s : string) :
  s ≠ "" → all_digits s = true → py_int s = Return (decimal 0 s).
Proof.
  intros Hne Hs. unfold py_int. rewrite strip_blank_digits by done.
  destruct s as [|c s]; [done|].
  rewrite unsigned_digit by (cbn in Hs; by apply andb_prop in Hs as [? _]).
  by rewrite int_digits_decimal.
Qed.

(** C7, amended.  On a line that starts with sixteen characters of the
    pattern [YYYY/MM/DD HH:MM] and whose five numbers make a date and time
    that exist (year 1 to 9999, month 1 to 12, day within the month, hour
    0 to 23, minute 0 to 59), the parser returns the date-time with
    exactly the numbers written at the offsets 0-3, 5-6, 8-9, 11-12 and
    14-15, whatever follows the sixteenth character. *)
Theorem get_datetime_reads_fields (stamp rest : string) :
  timestamp_pattern stamp = true →
  valid_datetime (number_at 0 4 stamp) (number_at 5 2 stamp)
    (number_at 8 2 stamp) (number_at 11 2 stamp) (number_at 14 2 stamp) = true →
  get_datetime (stamp +:+ rest)
  = Return (Datetime (number_at 0 4 stamp) (number_at 5 2 stamp)
              (number_at 8 2 stamp) (number_at 11 2 stamp)
              (number_at 14 2 stamp)).
Proof.
  unfold timestamp_pattern. rewrite !andb_true_iff.
  intros (((((((((Hlen & Hy) & _) & Hmo) & _) & Hd) & _) & Hh) & _) & Hmi).
  destruct stamp as [|y1 [|y2 [|y3 [|y4 [|a [|m1 [|m2 [|b [|d1 [|d2 [|c
    [|h1 [|h2 [|e [|n1 [|n2 [|? ?]]]]]]]]]]]]]]]]]; try discriminate Hlen.
  unfold number_at, get_datetime. cbv beta iota delta [String.append].
  cbn [substring slice drop_chars take_chars Nat.sub] in *.
  intros Hvalid. rewrite !py_int_digits by done. run_result.
  unfold new_datetime. rewrite Hvalid. by run_result.
Qed.

(** The example of the specification. *)
Lemma get_datetime_reads_fields_witness :
  get_datetime "2012/11/27 10:54 rest" = Return (Datetime 2012 11 27 10 54).
Proof.
  apply (get_datetime_reads_fields "2012/11/27 10:54" " rest"); reflexivity.
Defined.

(** C7 as first stated does not hold for every line of the pattern: month
    13 is written with two digits, and the constructor of the date-time
    raises [ValueError]. *)
Lemma get_datetime_month_13 :
  timestamp_pattern "2012/13/27 10:54" = true
  ∧ get_datetime "2012/13/27 10:54" = Raise ValueError.
Proof. split; reflexivity. Qed.

(** ** The interval extractor *)

Lemma search_loop_last (elems : list scalar) (place : scalar) (i : option scalar) :
  (search_loop elems place i).2 = from_option Some i (last elems).
Proof.
  revert place i. induction elems as [|x elems IH]; intros place i; [done|].
  cbn [search_loop]. rewrite last_cons.
  destruct (eq_str x "/"); rewrite IH; by destruct (last elems).
Qed.

(** C9.  On text, the type its docstring announces, [search_string] never
    returns an interval: the loop leaves a character in [i], so [i+11]
    raises [TypeError]; on the empty text [i] is unbound. *)
Theorem search_string_raises_on_text (s : string) :
  search_string (PyStr s)
  = Raise (match s with "" => UnboundLocalError | _ => TypeError end).
Proof.
  unfold search_string. cbn [iter]. run_result.
  pose proof (search_loop_last
    ((λ c, PyStr (String c "")) <$> list_ascii_of_string s) (PyInt 0) None) as Hi.
  destruct (search_loop _ _ _) as [place i]. cbn in Hi. subst i.
  rewrite fmap_last.
  destruct s as [|c s]; [done|].
  destruct (last (list_ascii_of_string (String c s))) eqn:Hlast; [done|].
  by apply last_None in Hlast.
Qed.

(** The example of the docstring, first as text, then as the bytes a
    fetcher delivers: there the last byte is 10, the slice is [21:30], and
    it happens to be the interval.  On the header line of the docstring of
    [get_taf] the same slice is not the interval. *)
Example search_string_docstring :
  search_string (PyStr docstring_line) = Raise TypeError.
Proof. reflexivity. Qed.

Example search_string_docstring_bytes :
  search_string (PyBytes docstring_line) = Return (Scalar (PyBytes "0519/0607")).
Proof. reflexivity. Qed.

Example search_string_forecast_bytes :
  search_string (PyBytes forecast_line) = Return (Scalar (PyBytes "/1907 100")).
Proof. reflexivity. Qed.

Lemma last_line_char (body : string) :
  last (list_ascii_of_string (body +:+ NL)) = Some newline.
Proof.
  induction body as [|c body IH]; [done|].
  change (list_ascii_of_string (String c body +:+ NL))
    with (c :: list_ascii_of_string (body +:+ NL)).
  by rewrite last_cons, IH.
Qed.

(** On the bytes of a line that ends with a newline the last byte is 10,
    and the function returns the nine bytes from offset 21, whatever the
    line holds. *)
Lemma search_string_bytes_line (body : string) :
  search_string (PyBytes (body +:+ NL))
  = Return (Scalar (PyBytes (slice 21 30 (body +:+ NL)))).
Proof.
  unfold search_string. cbn [iter]. run_result.
  pose proof (search_loop_last
    ((λ c, PyInt (code c)) <$> list_ascii_of_string (body +:+ NL))
    (PyInt 0) None) as Hi.
  destruct (search_loop _ _ _) as [place i]. cbn [snd] in Hi. subst i.
  rewrite fmap_last, last_line_char. cbn [fmap option_fmap option_map from_option add_int].
  run_result. cbn [getslice]. do 3 f_equal.
  apply (slice_clamped 21 30).
Qed.

(** ** The distance calculator *)

Section SelfDistance.

Variables libm_sin libm_cos libm_acos : float → float.

(** The platform rounds [sin] and [cos] correctly at that latitude, and
    its [cos 0] is 1. *)
Hypothesis sin_rounded : libm_sin lat8_rad = lat8_sin.
Hypothesis cos_rounded : libm_cos lat8_rad = lat8_cos.
Hypothesis cos_zero : libm_cos 0 = 1%float.

Lemma acos_argument_lat8 :
  acos_argument libm_sin libm_cos 8 0 8 0 = Return 0x1.0000000000001p+0%float.
Proof.
  unfold acos_argument, math_sin, math_cos.
  replace (8 * math_pi / 180)%float with lat8_rad by (by vm_compute).
  replace (0 * math_pi / 180 - 0 * math_pi / 180)%float with 0%float
    by (by vm_compute).
  replace (is_infinity lat8_rad) with false by (by vm_compute).
  replace (is_infinity 0) with false by (by vm_compute).
  run_result. rewrite sin_rounded, cos_rounded, cos_zero.
  reflexivity.
Qed.

(** C6.  The argument of [math.acos] is not clamped: for the two identical
    points of latitude 8 and longitude 0, on a platform where [sin] and
    [cos] are correctly rounded at that latitude, the function hands
    [math.acos] the double just above 1, which is outside [-1, 1], and
    [math.acos] raises the domain error. *)
Theorem acos_argument_not_clamped :
  acos_argument libm_sin libm_cos 8 0 8 0 = Return 0x1.0000000000001p+0%float
  ∧ (1 <? 0x1.0000000000001p+0)%float = true
  ∧ math_acos libm_acos 0x1.0000000000001p+0 = Raise ValueError.
Proof. split; [apply acos_argument_lat8|]. split; reflexivity. Qed.

(** C5.  The distance from the point of latitude 8 and longitude 0 to
    itself is not 0 within any tolerance: on such a platform the call
    raises [ValueError] and returns no distance. *)
Theorem self_distance_raises :
  compute_distance_latlon libm_sin libm_cos libm_acos 8 0 8 0
  = Raise ValueError.
Proof.
  unfold compute_distance_latlon. rewrite acos_argument_lat8. reflexivity.
Qed.

End SelfDistance.

(** The one-entry tables are such a platform. *)
Lemma acos_argument_not_clamped_witness :
  acos_argument table_sin table_cos 8 0 8 0 = Return 0x1.0000000000001p+0%float
  ∧ (1 <? 0x1.0000000000001p+0)%float = true
  ∧ math_acos table_acos 0x1.0000000000001p+0 = Raise ValueError.
Proof.
  apply (acos_argument_not_clamped table_sin table_cos table_acos);
    reflexivity.
Defined.

(** And so for the distance. *)
Lemma self_distance_raises_witness :
  compute_distance_latlon table_sin table_cos table_acos 8 0 8 0
  = Raise ValueError.
Proof.
  apply (self_distance_raises table_sin table_cos table_acos); reflexivity.
Defined.

(** ** Symmetry of the distance in binary64 *)

Lemma SFmul_comm (x y : spec_float) : SFmul prec emax x y = SFmul prec emax y x.
Proof.
  destruct x as [sx|sx| |sx mx ex], y as [sy|sy| |sy my ey]; cbn;
    rewrite ?(xorb_comm sx sy); try reflexivity.
  by rewrite (Pos.mul_comm mx my), (Z.add_comm ex ey).
Qed.

Lemma float_mul_comm (x y : float) : (x * y)%float = (y * x)%float.
Proof. apply Prim2SF_inj. rewrite !mul_spec. apply SFmul_comm. Qed.

Lemma binary_round_opp (s : bool) (m : positive) (e : Z) :
  binary_round prec emax (negb s) m e = SFopp (binary_round prec emax s m e).
Proof.
  unfold binary_round, binary_round_aux.
  destruct (shl_align _ _ _) as [mz ez].
  destruct (shr_fexp _ _ _ _ _) as [mrs' e'].
  destruct (shr_fexp _ _ _ _ _) as [mrs'' e''].
  destruct (shr_m mrs''); [done| |done].
  by destruct (Z.leb _ _).
Qed.

Lemma binary_normalize_opp (m e : Z) :
  m ≠ 0 →
  binary_normalize prec emax (- m) e false
  = SFopp (binary_normalize prec emax m e false).
Proof.
  destruct m as [|p|p]; [done| |]; intros _; cbn [binary_normalize Z.opp].
  - apply (binary_round_opp false).
  - apply (binary_round_opp true).
Qed.

Lemma SFsub_swap (x y : spec_float) :
  SFsub prec emax y x = SFopp (SFsub prec emax x y)
  ∨ SFsub prec emax y x = SFsub prec emax x y.
Proof.
  destruct x as [sx|sx| |sx mx ex], y as [sy|sy| |sy my ey];
    cbn [SFsub SFopp];
    try (repeat match goal with b : bool |- _ => destruct b end; cbn; by auto).
  rewrite (Z.min_comm ey ex).
  set (a := cond_Zopp sx _). set (b := cond_Zopp sy _).
  destruct (decide (a - b = 0)) as [Hz|Hnz].
  - right. by replace (b - a) with 0 by lia; rewrite Hz.
  - left. replace (b - a) with (- (a - b)) by lia.
    by apply binary_normalize_opp.
Qed.

Lemma float_sub_swap (x y : float) :
  (y - x)%float = (- (x - y))%float ∨ (y - x)%float = (x - y)%float.
Proof.
  destruct (SFsub_swap (Prim2SF x) (Prim2SF y)) as [H|H]; [left|right];
    apply Prim2SF_inj; rewrite ?opp_spec, !sub_spec; exact H.
Qed.

Lemma is_infinity_opp (x : float) : is_infinity (- x) = is_infinity x.
Proof.
  unfold is_infinity. f_equal. apply Prim2SF_inj.
  rewrite !abs_spec, opp_spec. by destruct (Prim2SF x).
Qed.

Section Symmetry.

Variables libm_sin libm_cos libm_acos : float → float.

Hypothesis cos_even : ∀ x : float, libm_cos (- x) = libm_cos x.

Lemma math_cos_sub_swap (x y : float) :
  math_cos libm_cos (y - x) = math_cos libm_cos (x - y).
Proof.
  destruct (float_sub_swap x y) as [-> | ->]; [|done].
  unfold math_cos. by rewrite is_infinity_opp, cos_even.
Qed.

(** The two points can be exchanged: in binary64, on a platform whose
    [cos] is even, the function returns the same double or raises the
    same error.  A double here is a value of binary64 with its sign, the
    two zeros apart, and with one NaN: the sign and the payload of a NaN
    are not followed, so a NaN one way is a NaN the other way. *)
Theorem compute_distance_latlon_symmetric (lat1 lon1 lat2 lon2 : float) :
  compute_distance_latlon libm_sin libm_cos libm_acos lat1 lon1 lat2 lon2
  = compute_distance_latlon libm_sin libm_cos libm_acos lat2 lon2 lat1 lon1.
Proof.
  unfold compute_distance_latlon. f_equal.
  unfold acos_argument. rewrite (math_cos_sub_swap (lon2 * math_pi / 180)).
  unfold math_sin, math_cos.
  destruct (is_infinity (lat1 * math_pi / 180)),
    (is_infinity (lat2 * math_pi / 180)),
    (is_infinity (lon2 * math_pi / 180 - lon1 * math_pi / 180));
    try reflexivity.
  run_result.
  by rewrite (float_mul_comm (libm_sin (lat1 * math_pi / 180))),
    (float_mul_comm (libm_cos (lat1 * math_pi / 180))).
Qed.

End Symmetry.

Lemma float_abs_opp (x : float) : abs (- x) = abs x.
Proof.
  apply Prim2SF_inj. rewrite !abs_spec, opp_spec. by destruct (Prim2SF x).
Qed.

Lemma sample_cos_even (x : float) : sample_cos (- x) = sample_cos x.
Proof. unfold sample_cos. by rewrite float_abs_opp. Qed.

(** Between the coordinates of EBCV and of EDDK, with the doubles the
    platform returns there: 126.22721898755394 nautical miles, in the one
    order and in the other. *)
Lemma compute_distance_latlon_symmetric_witness :
  compute_distance_latlon sample_sin sample_cos sample_acos
    0x1.94aaaa7ded6bbp+5 0x1.eaaaa7ded6ba9p+1
    0x1.9706e43aa79bcp+5 0x1.c7d27de6b5ac2p+2
  = compute_distance_latlon sample_sin sample_cos sample_acos
      0x1.9706e43aa79bcp+5 0x1.c7d27de6b5ac2p+2
      0x1.94aaaa7ded6bbp+5 0x1.eaaaa7ded6ba9p+1
  ∧ compute_distance_latlon sample_sin sample_cos sample_acos
      0x1.94aaaa7ded6bbp+5 0x1.eaaaa7ded6ba9p+1
      0x1.9706e43aa79bcp+5 0x1.c7d27de6b5ac2p+2
    = Return ebcv_eddk_distance.
Proof.
  split; [|by vm_compute].
  apply (compute_distance_latlon_symmetric sample_sin sample_cos sample_acos).
  exact sample_cos_even.
Defined.

(** * Properties of the rest of the module *)

(** ** The loader, outcome by outcome *)

Section LoaderOutcome.

Variable float_ok : string → bool.

Lemma records_of_cons (line : string) (lines : list string) :
  records_of float_ok (line :: lines)
  = match record_of float_ok line with
    | Some r => r :: records_of float_ok lines
    | None => records_of float_ok lines
    end.
Proof. reflexivity. Qed.

(** From a mapping [d]: the loop returns when the identifiers to come are
    pairwise distinct and none is in [d], and raises [TypeError]
    otherwise. *)
Lemma load_records_outcome (lines : list string) (d : gmap string value) :
  let recs := records_of float_ok lines in
  (NoDup recs.*1 ∧ Forall (λ k, d !! k = None) recs.*1 →
   load_records float_ok lines d = Return (list_to_map recs ∪ d))
  ∧ (¬ (NoDup recs.*1 ∧ Forall (λ k, d !! k = None) recs.*1) →
     load_records float_ok lines d = Raise TypeError).
Proof.
  revert d. induction lines as [|l lines IH]; intros d.
  - cbn. split; [by rewrite (left_id_L ∅ (∪))|].
    intros []. split; constructor.
  - cbn zeta. rewrite records_of_cons. cbn [load_records].
    rewrite load_line_record.
    destruct (record_of float_ok l) as [[k v]|]; [|apply IH].
    cbn [fmap list_fmap fst]. destruct (d !! k) eqn:Hk.
    + split; [|done]. intros [_ [Hnone _]%Forall_cons]. congruence.
    + destruct (IH (<[k:=v]> d)) as [IHok IHbad]. split.
      * intros [[Hfresh Hnd]%NoDup_cons Hd%Forall_cons_1].
        rewrite IHok.
        -- f_equal. rewrite list_to_map_cons.
           rewrite <- insert_union_l. symmetry. apply insert_union_r.
           by apply not_elem_of_list_to_map_1.
        -- split; [done|]. apply Forall_forall. intros k' Hk'.
           rewrite lookup_insert_ne by (intros ->; done).
           destruct Hd as [_ Hd]. by apply (proj1 (Forall_forall _ _) Hd).
      * intros Hbad. apply IHbad. intros [Hnd Hd]. apply Hbad. split.
        -- apply NoDup_cons. split; [|done]. intros Hin.
           pose proof (proj1 (Forall_forall _ _) Hd k Hin) as Hkk.
           cbn beta in Hkk. by rewrite lookup_insert_eq in Hkk.
        -- apply Forall_cons. split; [done|].
           apply Forall_forall. intros k' Hk'.
           pose proof (proj1 (Forall_forall _ _) Hd k' Hk') as Hkk.
           cbn beta in Hkk. destruct (decide (k = k')) as [->|Hne];
             [by rewrite lookup_insert_eq in Hkk|].
           by rewrite lookup_insert_ne in Hkk.
Qed.

End LoaderOutcome.

(** C3.  A line after the blank line of the header that does not split
    into exactly ten comma-separated fields, or whose latitude or
    longitude [float] rejects, is skipped in silence, and the loader goes
    on.  With such a line [bad] between the lines [pre] and [post]: the
    loader ends exactly as on the file without the line; what it ends
    with is decided by the other lines alone, the mapping of their
    records, or the [TypeError] of an identifier that two of them share;
    and when it returns, every well-formed line before and after [bad]
    has its record in the mapping, and every entry of the mapping is the
    record of one of these lines.  So [bad] brings no error and no entry,
    not even a partial one, and the records after it are loaded. *)
Theorem read_airport_data_skips_malformed
  (float_ok : string → bool) (fuel : nat) (header pre post : list string)
  (bad : string) :
  Forall (λ l, l ≠ NL) header →
  (List.length header < fuel)%nat →
  malformed float_ok bad →
  let source := header ++ NL :: pre ++ bad :: post in
  let others := records_of float_ok (pre ++ post) in
  read_airport_data float_ok fuel source
  = read_airport_data float_ok fuel (header ++ NL :: pre ++ post)
  ∧ read_airport_data float_ok fuel source
    = Some (if decide (NoDup others.*1) then Return (list_to_map others)
            else Raise TypeError)
  ∧ (NoDup others.*1 →
     ∃ data : gmap string value,
       read_airport_data float_ok fuel source = Some (Return data)
       ∧ (∀ line k v,
            line ∈ pre ++ post → record_of float_ok line = Some (k, v) →
            data !! k = Some v)
       ∧ (∀ k v,
            data !! k = Some v →
            ∃ line, line ∈ pre ++ post ∧ record_of float_ok line = Some (k, v))).
Proof.
  intros Hh Hfuel Hbad source others. unfold source.
  rewrite !read_header by done. rewrite !decide_True by done.
  rewrite load_records_skip by done.
  assert (Hout : load_records float_ok (pre ++ post) ∅
    = if decide (NoDup others.*1) then Return (list_to_map others)
      else Raise TypeError).
  { destruct (load_records_outcome float_ok (pre ++ post) ∅) as [Hok Hno].
    case_decide as Hnd.
    - rewrite Hok; [by rewrite (right_id_L ∅ (∪))|].
      split; [done|]. apply Forall_forall. intros k _. apply lookup_empty.
    - apply Hno. by intros [? _]. }
  split; [done|]. split; [by rewrite Hout|].
  intros Hnd. exists (list_to_map others).
  rewrite Hout, decide_True by done. split; [done|]. split.
  - intros line k v Hin Hrec. apply elem_of_list_to_map_1; [done|].
    apply list_elem_of_omap. by exists line.
  - intros k v Hkv. apply elem_of_list_to_map_2 in Hkv.
    apply list_elem_of_omap in Hkv as (line & Hin & Hrec). by exists line.
Qed.

(** A line of nine fields between two records: both records are loaded,
    the one before and the one after. *)
Lemma read_airport_data_skips_malformed_witness :
  malformed float_syntax nine_field_line
  ∧ read_airport_data float_syntax 2
      (["HEADER LINE" +:+ NL] ++ NL :: [record_line ebcv_fields]
       ++ nine_field_line :: [record_line eddk_fields])
    = Some (Return two_airports_data).
Proof.
  assert (Hbad : malformed float_syntax nine_field_line)
    by (left; vm_compute; lia).
  split; [exact Hbad|].
  destruct (read_airport_data_skips_malformed float_syntax 2
              ["HEADER LINE" +:+ NL] [record_line ebcv_fields]
              [record_line eddk_fields] nine_field_line)
    as (_ & Hout & _).
  - repeat constructor. discriminate.
  - simpl. lia.
  - exact Hbad.
  - rewrite Hout. by vm_compute.
Defined.

(** After the header, the loader returns exactly when the identifiers of
    the well-formed lines are pairwise distinct, and the mapping is then
    the one that sends each of these identifiers to the nine other fields
    of its line; when an identifier comes twice the loader raises
    [TypeError]. *)
Theorem read_airport_data_outcome
  (float_ok : string → bool) (fuel : nat) (header records : list string) :
  Forall (λ l, l ≠ NL) header →
  (List.length header < fuel)%nat →
  read_airport_data float_ok fuel (header ++ NL :: records)
  = Some (if decide (NoDup (records_of float_ok records).*1)
          then Return (list_to_map (records_of float_ok records))
          else Raise TypeError).
Proof.
  intros Hh Hfuel. rewrite read_header by done. rewrite decide_True by done.
  f_equal. destruct (load_records_outcome float_ok records ∅) as [Hok Hbad].
  case_decide as Hnd.
  - rewrite Hok; [by rewrite (right_id_L ∅ (∪))|].
    split; [done|]. apply Forall_forall. intros k _. apply lookup_empty.
  - apply Hbad. by intros [? _].
Qed.

(** The file with three lines that are no record and one record. *)
Lemma read_airport_data_outcome_witness :
  read_airport_data float_syntax 2 patchy_file
  = Some (if decide (NoDup (records_of float_syntax (tail (tail patchy_file))).*1)
          then Return (list_to_map (records_of float_syntax (tail (tail patchy_file))))
          else Raise TypeError).
Proof.
  apply (read_airport_data_outcome float_syntax 2 ["HEADER LINE" +:+ NL]).
  - repeat constructor. discriminate.
  - simpl. lia.
Defined.

(** ** Local files *)

(** [process_file] on a file that opens and has a header and a blank
    line: when the identifiers of the well-formed lines are pairwise
    distinct it returns their mapping and the file is closed again; when
    an identifier comes twice it raises [TypeError] and the file stays
    open, since [close] is not reached. *)
Theorem process_file_outcome
  (float_ok : string → bool) (disk : string → option file) (fuel : nat)
  (filename : string) (held : list string) (header records : list string) :
  disk filename = Some (header ++ NL :: records) →
  Forall (λ l, l ≠ NL) header →
  (List.length header < fuel)%nat →
  process_file float_ok disk fuel filename held
  = Some (if decide (NoDup (records_of float_ok records).*1)
          then (Return (list_to_map (records_of float_ok records)), held)
          else (Raise TypeError, filename :: held)).
Proof.
  intros Hdisk Hh Hfuel. unfold process_file. rewrite Hdisk.
  rewrite read_header by done. rewrite decide_True by done.
  destruct (load_records_outcome float_ok records ∅) as [Hok Hbad].
  case_decide as Hnd.
  - rewrite Hok; [by rewrite (right_id_L ∅ (∪))|].
    split; [done|]. apply Forall_forall. intros k _. apply lookup_empty.
  - rewrite Hbad; [done|]. by intros [? _].
Qed.

(** A disk with one file, which repeats a record. *)
Lemma process_file_outcome_witness :
  process_file float_syntax (λ name, if String.eqb name "airport_data.csv"
                                     then Some repeated_file else None)
    3 "airport_data.csv" []
  = Some (if decide (NoDup (records_of float_syntax
                              (tail (tail repeated_file))).*1)
          then (Return (list_to_map (records_of float_syntax
                                       (tail (tail repeated_file)))), [])
          else (Raise TypeError, ["airport_data.csv"])).
Proof.
  apply (process_file_outcome float_syntax _ 3 "airport_data.csv" []
           ["HEADER LINE" +:+ NL]).
  - reflexivity.
  - repeat constructor. discriminate.
  - simpl. lia.
Defined.

(** ** The distance between two airports *)

Lemma record_of_shape (float_ok : string → bool) (line : string)
  (k : string) (v : value) :
  record_of float_ok line = Some (k, v) →
  ∃ (name lat lon : string) (rest : list scalar),
    v = PyList (PyStr name :: PyStr lat :: PyStr lon :: rest)
    ∧ float_ok lat = true ∧ float_ok lon = true.
Proof.
  unfold record_of.
  destruct (split comma (strip line))
    as [|f0 [|f1 [|f2 [|f3 [|f4 [|f5 [|f6 [|f7 [|f8 [|f9 [|? ?]]]]]]]]]]];
    try done.
  destruct (float_ok f2) eqn:Hlat, (float_ok f3) eqn:Hlon; try done.
  intros [= <- <-]. by eexists _, _, _, _.
Qed.

Section DistanceByIdentifierFacts.

Variables libm_sin libm_cos libm_acos : float → float.
Variables str_float bytes_float : string → option float.

(** What the loader returns holds, for each identifier, a list with the
    name and then two texts that [float] accepts. *)
Lemma loaded_record (fuel : nat) (f : file) (data : gmap string value)
  (k : string) (v : value) :
  read_airport_data (accepted str_float) fuel f = Some (Return data) →
  data !! k = Some v →
  ∃ (name lat lon : string) (rest : list scalar) (x y : float),
    v = PyList (PyStr name :: PyStr lat :: PyStr lon :: rest)
    ∧ str_float lat = Some x ∧ str_float lon = Some y.
Proof.
  intros Hrun Hv.
  destruct (decide (NL ∈ f)) as [Hin%list_elem_of_In|Hout]; cycle 1.
  { rewrite read_no_blank in Hrun; [done|]. by rewrite <- list_elem_of_In. }
  apply first_blank in Hin as (header & records & -> & Hh).
  rewrite read_header in Hrun by done. case_decide; [|done].
  injection Hrun as Hrun.
  apply (load_records_entries _ _ _ _ k v) in Hrun.
  apply Hrun in Hv as [Hv|(line & _ & Hline)]; [by rewrite lookup_empty in Hv|].
  apply record_of_shape in Hline as (name & lat & lon & rest & -> & Hlat & Hlon).
  unfold accepted in Hlat, Hlon.
  destruct (str_float lat) as [x|] eqn:Hx; [|done].
  destruct (str_float lon) as [y|] eqn:Hy; [|done].
  by exists name, lat, lon, rest, x, y.
Qed.

Lemma float_field_loaded (fuel : nat) (f : file) (data : gmap string value)
  (k : string) :
  read_airport_data (accepted str_float) fuel f = Some (Return data) →
  match coordinates str_float data k with
  | Some (x, y) =>
      float_field str_float bytes_float data k 1 = Returns x
      ∧ float_field str_float bytes_float data k 2 = Returns y
  | None =>
      data !! k = None
      ∧ ∀ i, float_field str_float bytes_float data k i = Raises KeyError
  end.
Proof.
  intros Hrun. unfold coordinates, float_field, dict_getitem.
  destruct (data !! k) as [v|] eqn:Hv; [|done].
  destruct (loaded_record _ _ _ _ _ Hrun Hv)
    as (name & lat & lon & rest & x & y & -> & Hx & Hy).
  rewrite Hx, Hy. run_outcome. cbn. by rewrite Hx, Hy.
Qed.

(** On what the loader returns, the function is the distance between the
    stored coordinates, or [KeyError]. *)
Lemma compute_distance_icao_cases (fuel : nat) (f : file)
  (data : gmap string value) (icao1 icao2 : string) :
  read_airport_data (accepted str_float) fuel f = Some (Return data) →
  compute_distance_icao libm_sin libm_cos libm_acos str_float bytes_float
    icao1 icao2 data
  = match coordinates str_float data icao1, coordinates str_float data icao2 with
    | Some (lat1, lon1), Some (lat2, lon2) =>
        of_result (compute_distance_latlon libm_sin libm_cos libm_acos
                     lat1 lon1 lat2 lon2)
    | _, _ => Raises KeyError
    end.
Proof.
  intros Hrun.
  pose proof (float_field_loaded _ _ _ icao1 Hrun) as F1.
  pose proof (float_field_loaded _ _ _ icao2 Hrun) as F2.
  unfold compute_distance_icao.
  destruct (coordinates str_float data icao1) as [[lat1 lon1]|].
  2:{ destruct F1 as [_ F1]. by rewrite !F1. }
  destruct F1 as [-> ->]. run_outcome.
  destruct (coordinates str_float data icao2) as [[lat2 lon2]|].
  2:{ destruct F2 as [_ F2]. by rewrite !F2. }
  destruct F2 as [-> ->]. run_outcome.
  by destruct (compute_distance_latlon _ _ _ _ _ _ _).
Qed.

Lemma coordinates_loaded (fuel : nat) (f : file) (data : gmap string value)
  (k : string) :
  read_airport_data (accepted str_float) fuel f = Some (Return data) →
  coordinates str_float data k = None ↔ data !! k = None.
Proof.
  intros Hrun. pose proof (float_field_loaded _ _ _ k Hrun) as F.
  split.
  - intros Hc. rewrite Hc in F. by destruct F.
  - intros Hk. unfold coordinates. by rewrite Hk.
Qed.

(** From the mapping the loader returns, the distance between two
    identifiers that are both in it is the distance between their stored
    coordinates: no lookup and no conversion fails. *)
Theorem compute_distance_icao_loaded (fuel : nat) (f : file)
  (data : gmap string value) (icao1 icao2 : string) :
  read_airport_data (accepted str_float) fuel f = Some (Return data) →
  is_Some (data !! icao1) →
  is_Some (data !! icao2) →
  ∃ lat1 lon1 lat2 lon2 : float,
    coordinates str_float data icao1 = Some (lat1, lon1)
    ∧ coordinates str_float data icao2 = Some (lat2, lon2)
    ∧ compute_distance_icao libm_sin libm_cos libm_acos str_float bytes_float
        icao1 icao2 data
      = of_result (compute_distance_latlon libm_sin libm_cos libm_acos
                     lat1 lon1 lat2 lon2).
Proof.
  intros Hrun H1 H2. rewrite (compute_distance_icao_cases _ _ _ _ _ Hrun).
  pose proof (coordinates_loaded _ _ _ icao1 Hrun) as C1.
  pose proof (coordinates_loaded _ _ _ icao2 Hrun) as C2.
  destruct (coordinates str_float data icao1) as [[lat1 lon1]|].
  2:{ destruct H1 as [v1 H1]. rewrite (proj1 C1 eq_refl) in H1. done. }
  destruct (coordinates str_float data icao2) as [[lat2 lon2]|].
  2:{ destruct H2 as [v2 H2]. rewrite (proj1 C2 eq_refl) in H2. done. }
  by exists lat1, lon1, lat2, lon2.
Qed.

(** From the mapping the loader returns, an identifier that is not in it
    makes the function raise [KeyError], whichever of the two it is. *)
Theorem compute_distance_icao_missing (fuel : nat) (f : file)
  (data : gmap string value) (icao1 icao2 : string) :
  read_airport_data (accepted str_float) fuel f = Some (Return data) →
  data !! icao1 = None ∨ data !! icao2 = None →
  compute_distance_icao libm_sin libm_cos libm_acos str_float bytes_float
    icao1 icao2 data
  = Raises KeyError.
Proof.
  intros Hrun Hmiss. rewrite (compute_distance_icao_cases _ _ _ _ _ Hrun).
  destruct Hmiss as [H|H];
    apply (coordinates_loaded _ _ _ _ Hrun) in H; rewrite H; [done|].
  by destruct (coordinates str_float data icao1) as [[? ?]|].
Qed.

(** With an even [cos], the two points can be exchanged. *)
Lemma distance_latlon_swap (lat1 lon1 lat2 lon2 : float) :
  (∀ x : float, libm_cos (- x) = libm_cos x) →
  compute_distance_latlon libm_sin libm_cos libm_acos lat1 lon1 lat2 lon2
  = compute_distance_latlon libm_sin libm_cos libm_acos lat2 lon2 lat1 lon1.
Proof.
  intros cos_even. unfold compute_distance_latlon. f_equal.
  unfold acos_argument.
  rewrite (math_cos_sub_swap libm_cos cos_even (lon2 * math_pi / 180)).
  unfold math_sin, math_cos.
  destruct (is_infinity (lat1 * math_pi / 180)),
    (is_infinity (lat2 * math_pi / 180)),
    (is_infinity (lon2 * math_pi / 180 - lon1 * math_pi / 180));
    try reflexivity.
  run_result.
  by rewrite (float_mul_comm (libm_sin (lat1 * math_pi / 180))),
    (float_mul_comm (libm_cos (lat1 * math_pi / 180))).
Qed.

(** From the mapping the loader returns, on a platform whose [cos] is
    even, the two identifiers can be exchanged: the same double, or the
    same error.  As above a double has one NaN, whose sign and payload
    are not followed: a loaded coordinate can be the text [nan], and the
    outcome is then a NaN in either order. *)
Theorem compute_distance_icao_symmetric (fuel : nat) (f : file)
  (data : gmap string value) (icao1 icao2 : string) :
  (∀ x : float, libm_cos (- x) = libm_cos x) →
  read_airport_data (accepted str_float) fuel f = Some (Return data) →
  compute_distance_icao libm_sin libm_cos libm_acos str_float bytes_float
    icao1 icao2 data
  = compute_distance_icao libm_sin libm_cos libm_acos str_float bytes_float
      icao2 icao1 data.
Proof.
  intros cos_even Hrun.
  rewrite !(compute_distance_icao_cases _ _ _ _ _ Hrun).
  destruct (coordinates str_float data icao1) as [[lat1 lon1]|],
    (coordinates str_float data icao2) as [[lat2 lon2]|]; try done.
  f_equal. by apply distance_latlon_swap.
Qed.

End DistanceByIdentifierFacts.

(** The two records of the docstring of the loader. *)
Lemma compute_distance_icao_loaded_witness :
  ∃ lat1 lon1 lat2 lon2 : float,
    coordinates sample_float two_airports_data "EBCV" = Some (lat1, lon1)
    ∧ coordinates sample_float two_airports_data "EDDK" = Some (lat2, lon2)
    ∧ compute_distance_icao table_sin flat_cos table_acos sample_float
        (λ _, None) "EBCV" "EDDK" two_airports_data
      = of_result (compute_distance_latlon table_sin flat_cos table_acos
                     lat1 lon1 lat2 lon2).
Proof.
  apply (compute_distance_icao_loaded table_sin flat_cos table_acos
           sample_float (λ _, None) 3 two_airports).
  - by vm_compute.
  - eexists. by vm_compute.
  - eexists. by vm_compute.
Defined.

Lemma compute_distance_icao_missing_witness :
  compute_distance_icao table_sin flat_cos table_acos sample_float
    (λ _, None) "EBCV" "EBBR" two_airports_data
  = Raises KeyError.
Proof.
  apply (compute_distance_icao_missing table_sin flat_cos table_acos
           sample_float (λ _, None) 3 two_airports).
  - by vm_compute.
  - right. by vm_compute.
Defined.

(** Between EBCV and EDDK, with the doubles the platform returns there:
    the same 126.22721898755394 nautical miles in the two orders. *)
Lemma compute_distance_icao_symmetric_witness :
  compute_distance_icao sample_sin sample_cos sample_acos sample_float
    (λ _, None) "EBCV" "EDDK" two_airports_data
  = compute_distance_icao sample_sin sample_cos sample_acos sample_float
      (λ _, None) "EDDK" "EBCV" two_airports_data
  ∧ compute_distance_icao sample_sin sample_cos sample_acos sample_float
      (λ _, None) "EBCV" "EDDK" two_airports_data
    = Returns ebcv_eddk_distance.
Proof.
  split; [|by vm_compute].
  apply (compute_distance_icao_symmetric sample_sin sample_cos sample_acos
           sample_float (λ _, None) 3 two_airports).
  - exact sample_cos_even.
  - by vm_compute.
Defined.

(** ** The fetched lines *)

Lemma append_assoc (a b c : string) : (a +:+ b) +:+ c = a +:+ (b +:+ c).
Proof.
  induction a as [|x a IH]; cbv beta iota delta [String.append]; [done|].
  fold String.append. by rewrite IH.
Qed.

Lemma append_nil_r (a : string) : a +:+ "" = a.
Proof.
  induction a as [|x a IH]; cbv beta iota delta [String.append]; [done|].
  fold String.append. by rewrite IH.
Qed.

Lemma append_cons (x : ascii) (a b : string) :
  String x a +:+ b = String x (a +:+ b).
Proof. reflexivity. Qed.

Lemma one_line_snoc (cur : string) (c : ascii) :
  has_char newline cur = false → one_line (cur +:+ String c "") = true.
Proof.
  induction cur as [|x cur IH]; [done|].
  rewrite append_cons. cbn [has_char one_line].
  intros [Hx H]%orb_false_iff. rewrite Hx, (IH H). by destruct cur.
Qed.

Lemma ends_line_snoc (cur : string) : ends_line (cur +:+ NL) = true.
Proof.
  induction cur as [|x cur IH]; [done|].
  rewrite append_cons. cbn [ends_line]. rewrite IH. by destruct cur.
Qed.

Lemma has_char_snoc (cur : string) (c : ascii) :
  has_char newline cur = false → Ascii.eqb c newline = false →
  has_char newline (cur +:+ String c "") = false.
Proof.
  intros Hcur Hc. induction cur as [|x cur IH].
  - change (Ascii.eqb c newline || false = false). by rewrite Hc.
  - rewrite append_cons. cbn [has_char] in *.
    apply orb_false_iff in Hcur as [Hx H]. rewrite Hx. by apply IH.
Qed.

Lemma one_line_no_newline (cur : string) :
  cur ≠ "" → has_char newline cur = false → one_line cur = true.
Proof.
  induction cur as [|x cur IH]; [done|]. intros _. cbn [has_char one_line].
  intros [Hx H]%orb_false_iff.
  destruct cur as [|y cur]; [done|]. rewrite Hx. cbn [negb andb].
  by apply IH.
Qed.

(** What [readlines] makes of a content: the lines, put end to end, are
    the content; each is one line; all but the last end with the line
    end. *)
Lemma file_lines_from_spec (content cur : string) :
  has_char newline cur = false →
  String.concat "" (file_lines_from cur content) = cur +:+ content
  ∧ Forall (λ l, one_line l = true) (file_lines_from cur content)
  ∧ Forall (λ l, ends_line l = true) (removelast (file_lines_from cur content)).
Proof.
  revert cur. induction content as [|c content IH]; intros cur Hcur.
  - cbn [file_lines_from]. rewrite append_nil_r. destruct cur as [|x cur].
    + by repeat split.
    + split; [done|]. split; [|by constructor].
      constructor; [|done]. by apply one_line_no_newline.
  - cbn [file_lines_from]. destruct (Ascii.eqb c newline) eqn:Hc.
    + apply Ascii.eqb_eq in Hc as ->.
      destruct (IH "" eq_refl) as (Hcat & Hone & Hend).
      split; [|split].
      * change ("" +:+ content) with content in Hcat.
        destruct (file_lines_from "" content) as [|l ls] eqn:Hf.
        -- cbn in Hcat. by rewrite <- Hcat.
        -- change (String.concat "" ((cur +:+ NL) :: l :: ls))
             with ((cur +:+ NL) +:+ String.concat "" (l :: ls)).
           by rewrite Hcat, append_assoc.
      * constructor; [|done]. by apply one_line_snoc.
      * change (removelast ((cur +:+ NL) :: file_lines_from "" content))
          with (match file_lines_from "" content with
                | [] => []
                | _ => (cur +:+ NL) :: removelast (file_lines_from "" content)
                end).
        destruct (file_lines_from "" content); [done|].
        constructor; [|done]. apply ends_line_snoc.
    + destruct (IH (cur +:+ String c "")) as (Hcat & Hone & Hend).
      { by apply has_char_snoc. }
      split; [|done]. rewrite Hcat. by rewrite append_assoc.
Qed.

Lemma file_lines_from_nil (content cur : string) :
  file_lines_from cur content = [] ↔ cur = "" ∧ content = "".
Proof.
  revert cur. induction content as [|c content IH]; intros cur.
  - cbn. destruct cur; split; try done. by intros [? _].
  - cbn [file_lines_from]. destruct (Ascii.eqb c newline).
    + split; [done|]. by intros [_ ?].
    + rewrite IH. split; [|by intros [_ ?]]. intros [H _]. by destruct cur.
Qed.

Lemma file_lines_nil (content : string) :
  file_lines content = [] ↔ content = "".
Proof.
  unfold file_lines. rewrite file_lines_from_nil.
  split; [by intros [_ ?]|done].
Qed.

(** The forecast fetchers lose and add nothing: when the resource is
    delivered, the list they return is made of the served bytes cut after
    each line end, so the lines put end to end are the content, each is
    one line, and all but the last end with the line end.  The
    observation fetcher returns the same bytes uncut. *)
Theorem fetched_lines_are_the_content
  (net : string → remote) (p : product) (icao : string) (w : world)
  (content : string) :
  net (address p icao) = Stream (Some content) true →
  ∃ lines : list string,
    (fetch net p icao w).1
    = Return (match p with
              | Observation => Scalar (PyBytes (String.concat "" lines))
              | _ => PyList (PyBytes <$> lines)
              end)
    ∧ String.concat "" lines = content
    ∧ Forall (λ l, one_line l = true) lines
    ∧ Forall (λ l, ends_line l = true) (removelast lines).
Proof.
  intros Hnet. rewrite fetch_outcome, Hnet. cbn [fst].
  destruct (file_lines_from_spec content "" eq_refl) as (Hcat & Hone & Hend).
  exists (file_lines content). unfold file_lines.
  rewrite Hcat. by destruct p.
Qed.

Lemma fetched_lines_are_the_content_witness :
  ∃ lines : list string,
    (get_taf net_both "EBCV" quiet).1 = Return (PyList (PyBytes <$> lines))
    ∧ String.concat "" lines = standard_sample
    ∧ Forall (λ l, one_line l = true) lines
    ∧ Forall (λ l, ends_line l = true) (removelast lines).
Proof.
  apply (fetched_lines_are_the_content net_both Forecast "EBCV" quiet).
  reflexivity.
Defined.

(** ** The selector *)

Section SelectorFacts.

Variable net : string → remote.

(** The selector when both resources are delivered: the first lines
    decide, and a variant without one makes it raise. *)
Lemma get_latest_report_delivered (icao : string) (w : world) (c1 c2 : string) :
  net (address Forecast icao) = Stream (Some c1) true →
  net (address ShortForecast icao) = Stream (Some c2) true →
  (get_latest_report net icao w).1
  = match file_lines c1, file_lines c2 with
    | t :: _, s :: _ =>
        Return (if str_gt t s then delivered Forecast c1
                else delivered ShortForecast c2)
    | _, _ => Raise IndexError
    end.
Proof.
  intros H1 H2. unfold get_latest_report, mbind, io_bind.
  change (get_taf net icao) with (fetch net Forecast icao).
  rewrite fetch_outcome, H1.
  change (get_shorttaf net icao) with (fetch net ShortForecast icao).
  rewrite fetch_outcome, H2.
  cbn [delivered eq_str lift getitem].
  destruct (file_lines c1) as [|t ts]; [done|].
  destruct (file_lines c2) as [|s ss]; [done|].
  cbn [fmap list_fmap nth_error gt]. by destruct (str_gt t s).
Qed.

(** The selector when a fetch fails: it returns. *)
Lemma get_latest_report_failed (icao : string) (w : world) :
  io_failure (net (address Forecast icao)) = true
  ∨ io_failure (net (address ShortForecast icao)) = true →
  ∃ v : value, (get_latest_report net icao w).1 = Return v.
Proof.
  intros H. unfold get_latest_report, mbind, io_bind.
  change (get_taf net icao) with (fetch net Forecast icao).
  rewrite fetch_outcome.
  change (get_shorttaf net icao) with (fetch net ShortForecast icao).
  destruct (net (address Forecast icao)) as [|[c1|] []];
    rewrite fetch_outcome;
    destruct (net (address ShortForecast icao)) as [|[c2|] []];
    cbn in H; try (by eexists); by destruct H.
Qed.

End SelectorFacts.

(** The selector raises in one situation only, and then [IndexError]:
    both resources are delivered and one of them is an empty file.  When
    a fetch fails, or both files have a first line, it returns. *)
Theorem get_latest_report_raises_iff
  (net : string → remote) (icao : string) (w : world) (e : exn) :
  (get_latest_report net icao w).1 = Raise e
  ↔ e = IndexError
    ∧ ∃ c1 c2 : string,
        net (address Forecast icao) = Stream (Some c1) true
        ∧ net (address ShortForecast icao) = Stream (Some c2) true
        ∧ (c1 = "" ∨ c2 = "").
Proof.
  split.
  - intros Hraise.
    destruct (io_failure (net (address Forecast icao))) eqn:F1.
    { destruct (get_latest_report_failed net icao w) as [v Hv]; [by left|].
      by rewrite Hv in Hraise. }
    destruct (io_failure (net (address ShortForecast icao))) eqn:F2.
    { destruct (get_latest_report_failed net icao w) as [v Hv]; [by right|].
      by rewrite Hv in Hraise. }
    destruct (net (address Forecast icao)) as [|[c1|] []] eqn:H1; try done.
    destruct (net (address ShortForecast icao)) as [|[c2|] []] eqn:H2; try done.
    rewrite (get_latest_report_delivered net icao w c1 c2 H1 H2) in Hraise.
    destruct (file_lines c1) as [|t ts] eqn:L1.
    { apply file_lines_nil in L1. split; [congruence|]. exists c1, c2. auto. }
    destruct (file_lines c2) as [|s ss] eqn:L2; [|done].
    apply file_lines_nil in L2. split; [congruence|]. exists c1, c2. auto.
  - intros (-> & c1 & c2 & H1 & H2 & Hempty).
    rewrite (get_latest_report_delivered net icao w c1 c2 H1 H2).
    destruct Hempty as [-> | ->]; [done|].
    by destruct (file_lines c1).
Qed.

(** ** The order of first lines and the order of dates *)

Lemma compare_app (a b x y : string) :
  String.length a = String.length b →
  String.compare (a +:+ x) (b +:+ y)
  = match String.compare a b with
    | Eq => String.compare x y
    | c => c
    end.
Proof.
  revert b. induction a as [|c a IH]; intros [|d b] Hlen; try done.
  rewrite !append_cons. cbn [String.compare].
  destruct (Ascii.compare c d); try done. apply IH. by injection Hlen.
Qed.

Lemma decimal_shift (s : string) (acc : Z) :
  decimal acc s = acc * 10 ^ Z.of_nat (String.length s) + decimal 0 s.
Proof.
  revert acc. induction s as [|c s IH]; intros acc.
  - cbn. lia.
  - cbn [decimal String.length]. rewrite IH, (IH (10 * 0 + _)).
    rewrite Nat2Z.inj_succ, Z.pow_succ_r by lia. lia.
Qed.

Lemma decimal_bound (s : string) :
  all_digits s = true → 0 ≤ decimal 0 s < 10 ^ Z.of_nat (String.length s).
Proof.
  induction s as [|c s IH]; [cbn; lia|].
  cbn [all_digits decimal String.length]. intros [Hc Hs]%andb_prop.
  rewrite decimal_shift, Nat2Z.inj_succ, Z.pow_succ_r by lia.
  specialize (IH Hs). unfold is_digit in Hc. nia.
Qed.

Lemma ascii_compare_code (c d : ascii) :
  Ascii.compare c d = (code c ?= code d).
Proof. unfold Ascii.compare, code. by rewrite N2Z.inj_compare. Qed.

(** Texts of digits of one length are ordered as the numbers they
    write. *)
Lemma digits_compare (a b : string) :
  all_digits a = true → all_digits b = true →
  String.length a = String.length b →
  String.compare a b = (decimal 0 a ?= decimal 0 b).
Proof.
  revert b. induction a as [|c a IH]; intros [|d b] Ha Hb Hlen; try done.
  cbn [all_digits] in Ha, Hb.
  apply andb_prop in Ha as [Hc Ha]. apply andb_prop in Hb as [Hd Hb].
  injection Hlen as Hlen.
  cbn [String.compare decimal]. rewrite ascii_compare_code.
  rewrite (decimal_shift a), (decimal_shift b), (IH b Ha Hb Hlen), Hlen.
  pose proof (decimal_bound a Ha) as Ba. pose proof (decimal_bound b Hb) as Bb.
  rewrite Hlen in Ba.
  set (P := 10 ^ Z.of_nat (String.length b)) in *.
  set (x := decimal 0 a) in *. set (y := decimal 0 b) in *.
  destruct (Z.compare_spec (code c) (code d)) as [Heq|Hlt|Hgt].
  - rewrite Heq. destruct (Z.compare_spec x y); symmetry.
    + apply Z.compare_eq_iff. lia.
    + apply Z.compare_lt_iff. lia.
    + apply Z.compare_gt_iff. lia.
  - symmetry. apply Z.compare_lt_iff. nia.
  - symmetry. apply Z.compare_gt_iff. nia.
Qed.

Lemma compare_field (a b x y : string) (sep : ascii) :
  all_digits a = true → all_digits b = true →
  String.length a = String.length b →
  String.compare (a +:+ (String sep "" +:+ x)) (b +:+ (String sep "" +:+ y))
  = match decimal 0 a ?= decimal 0 b with
    | Eq => String.compare x y
    | c => c
    end.
Proof.
  intros Ha Hb Hlen. rewrite compare_app, digits_compare by done.
  destruct (_ ?= _); try done.
  change (String sep "" +:+ x) with (String sep x).
  change (String sep "" +:+ y) with (String sep y).
  cbn [String.compare]. rewrite ascii_compare_code. by rewrite Z.compare_refl.
Qed.

(** The parts of a stamp of the pattern. *)
Lemma stamp_parts (s : string) :
  timestamp_pattern s = true →
  ∃ y mo d h mi : string,
    s = y +:+ ("/" +:+ (mo +:+ ("/" +:+ (d +:+ (" " +:+ (h +:+ (":" +:+ mi)))))))
    ∧ stamp_fields s
      = [decimal 0 y; decimal 0 mo; decimal 0 d; decimal 0 h; decimal 0 mi]
    ∧ (all_digits y = true ∧ String.length y = 4%nat)
    ∧ (all_digits mo = true ∧ String.length mo = 2%nat)
    ∧ (all_digits d = true ∧ String.length d = 2%nat)
    ∧ (all_digits h = true ∧ String.length h = 2%nat)
    ∧ (all_digits mi = true ∧ String.length mi = 2%nat).
Proof.
  unfold timestamp_pattern. rewrite !andb_true_iff.
  intros (((((((((Hlen & Hy) & Ha) & Hmo) & Hb) & Hd) & Hc) & Hh) & He) & Hmi).
  destruct s as [|y1 [|y2 [|y3 [|y4 [|a [|m1 [|m2 [|b [|d1 [|d2 [|c
    [|h1 [|h2 [|e [|n1 [|n2 [|? ?]]]]]]]]]]]]]]]]]; try discriminate Hlen.
  unfold stamp_fields, number_at.
  cbn [substring] in *.
  apply String.eqb_eq in Ha, Hb, Hc, He.
  injection Ha as ->. injection Hb as ->. injection Hc as ->. injection He as ->.
  by eexists (String y1 (String y2 (String y3 (String y4 "")))),
    (String m1 (String m2 "")), (String d1 (String d2 "")),
    (String h1 (String h2 "")), (String n1 (String n2 "")).
Qed.

Lemma stamp_order (st ss rt rs : string) :
  timestamp_pattern st = true → timestamp_pattern ss = true →
  str_gt (st +:+ rt) (ss +:+ rs)
  = if later_than (stamp_fields st) (stamp_fields ss) then true
    else if later_than (stamp_fields ss) (stamp_fields st) then false
    else str_gt rt rs.
Proof.
  intros (y & mo & d & h & mi & -> & -> & [Hy Ly] & [Hmo Lmo] & [Hd Ld]
          & [Hh Lh] & [Hmi Lmi])%stamp_parts.
  intros (y' & mo' & d' & h' & mi' & -> & -> & [Hy' Ly'] & [Hmo' Lmo']
          & [Hd' Ld'] & [Hh' Lh'] & [Hmi' Lmi'])%stamp_parts.
  unfold str_gt. rewrite !append_assoc.
  rewrite !compare_field by congruence.
  rewrite compare_app, digits_compare by congruence.
  cbn [later_than].
  repeat match goal with
  | |- context [decimal 0 ?s] => generalize (decimal 0 s); intro
  end.
  repeat match goal with
  | |- context [?a ?= ?b] => destruct (Z.compare_spec a b)
  end;
  repeat match goal with
  | |- context [?a <? ?b] => destruct (Z.ltb_spec a b); try lia
  | |- context [?a =? ?b] => destruct (Z.eqb_spec a b); try lia
  end; cbn [orb andb]; try done;
  by destruct (String.compare rt rs).
Qed.

(** The selector returns the most current report.  When both resources
    are delivered and each starts with a stamp [YYYY/MM/DD HH:MM], it
    returns the standard forecast if its stamp is the later date and
    time, the short one if the short stamp is the later; only between
    equal stamps does what follows the stamp on the first line decide. *)
Theorem get_latest_report_most_current
  (net : string → remote) (icao : string) (w : world)
  (c1 c2 st rt ss rs : string) (ts sss : list string) :
  net (address Forecast icao) = Stream (Some c1) true →
  net (address ShortForecast icao) = Stream (Some c2) true →
  file_lines c1 = (st +:+ rt) :: ts →
  file_lines c2 = (ss +:+ rs) :: sss →
  timestamp_pattern st = true →
  timestamp_pattern ss = true →
  (get_latest_report net icao w).1
  = Return (if later_than (stamp_fields st) (stamp_fields ss)
            then delivered Forecast c1
            else if later_than (stamp_fields ss) (stamp_fields st)
            then delivered ShortForecast c2
            else if str_gt rt rs then delivered Forecast c1
            else delivered ShortForecast c2).
Proof.
  intros H1 H2 L1 L2 Pt Ps.
  rewrite (get_latest_report_delivered net icao w c1 c2 H1 H2), L1, L2.
  rewrite (stamp_order st ss rt rs Pt Ps).
  by repeat case_match.
Qed.

Lemma get_latest_report_most_current_witness :
  (get_latest_report net_both "EBCV" quiet).1
  = Return (delivered Forecast standard_sample).
Proof.
  apply (get_latest_report_most_current net_both "EBCV" quiet
           standard_sample short_sample
           "2012/11/19 13:51" NL "2012/11/18 19:45" NL
           ["TAF TAF EBCV 191141Z 1913/1922 19008KT" +:+ NL]
           ["TAF EBCV 181541Z 1819/1907 10002KT" +:+ NL]); reflexivity.
Defined.

(** ** What the timestamp parser reads *)

Lemma nth_char_drop (i k : nat) (s : string) :
  nth_char k (drop_chars i s) = nth_char (i + k) s.
Proof.
  revert s. induction i as [|i IH]; intros [|c s]; cbn; try done.
  by destruct k.
Qed.

Lemma take_chars_ext (n : nat) (s s' : string) :
  (∀ k : nat, (k < n)%nat → nth_char k s = nth_char k s') →
  take_chars n s = take_chars n s'.
Proof.
  revert s s'. induction n as [|n IH]; intros s s' H.
  - by destruct s, s'.
  - pose proof (H 0%nat ltac:(lia)) as H0.
    destruct s as [|c s], s' as [|c' s']; try done.
    cbn in H0. injection H0 as ->. cbn [take_chars]. f_equal.
    apply IH. intros k Hk. apply (H (S k)). lia.
Qed.

Lemma slice_ext (i j : nat) (s s' : string) :
  (∀ k : nat, (i ≤ k < j)%nat → nth_char k s = nth_char k s') →
  slice i j s = slice i j s'.
Proof.
  intros H. unfold slice. apply take_chars_ext. intros k Hk.
  rewrite !nth_char_drop. apply H. lia.
Qed.

Lemma py_int_raises (s : string) (e : exn) :
  py_int s = Raise e → e = ValueError.
Proof.
  unfold py_int.
  destruct (match strip_blank s with "" => _ | _ => _ end) as [neg body].
  destruct (int_digits AtStart 0 body); congruence.
Qed.

(** The parser reads the characters at the offsets 0-3, 5-6, 8-9, 11-12
    and 14-15 and nothing else: two lines that agree there, whatever
    their separators, their other characters and their lengths beyond,
    have the same outcome, the same date-time or the same error. *)
Theorem get_datetime_reads_only_fields (line line' : string) :
  (∀ k : nat, k ∈ stamp_offsets → nth_char k line = nth_char k line') →
  get_datetime line = get_datetime line'.
Proof.
  intros H. unfold get_datetime.
  assert (Hs : ∀ i j : nat,
    (∀ k, (i ≤ k < j)%nat → k ∈ stamp_offsets) →
    slice i j line = slice i j line').
  { intros i j Hij. apply slice_ext. intros k Hk. apply H, Hij, Hk. }
  rewrite (Hs 0 4)%nat, (Hs 5 7)%nat, (Hs 8 10)%nat, (Hs 11 13)%nat,
    (Hs 14 16)%nat; [done|intros k Hk; unfold stamp_offsets..].
  - assert (k = 14 ∨ k = 15)%nat as [-> | ->] by lia; repeat constructor.
  - assert (k = 11 ∨ k = 12)%nat as [-> | ->] by lia; repeat constructor.
  - assert (k = 8 ∨ k = 9)%nat as [-> | ->] by lia; repeat constructor.
  - assert (k = 5 ∨ k = 6)%nat as [-> | ->] by lia; repeat constructor.
  - assert (k = 0 ∨ k = 1 ∨ k = 2 ∨ k = 3)%nat as [-> | [-> | [-> | ->]]] by lia;
      repeat constructor.
Qed.

Lemma get_datetime_reads_only_fields_witness :
  get_datetime "2012/11/27 10:54" = get_datetime "2012-11-27T10h54m00 UTC".
Proof.
  apply get_datetime_reads_only_fields.
  intros k Hk. unfold stamp_offsets in Hk.
  repeat (apply elem_of_cons in Hk as [-> | Hk]; [reflexivity|]).
  by apply elem_of_nil in Hk.
Defined.

(** A line of fewer than fifteen characters has no minute field: the
    parser raises [ValueError], whatever the line holds. *)
Theorem get_datetime_short_line (line : string) :
  (String.length line < 15)%nat → get_datetime line = Raise ValueError.
Proof.
  intros Hlen. unfold get_datetime.
  assert (Hmin : slice 14 16 line = "").
  { unfold slice. rewrite drop_chars_all by lia. done. }
  rewrite Hmin.
  repeat match goal with
  | |- context [py_int (slice ?i ?j line)] =>
      let H := fresh "H" in
      destruct (py_int (slice i j line)) as [?|?] eqn:H;
      [|apply py_int_raises in H as ->; by run_result]
  end.
  by run_result.
Qed.

Lemma get_datetime_short_line_witness :
  get_datetime "2012/11/27 10" = Raise ValueError.
Proof. apply get_datetime_short_line. cbn. lia. Defined.

(** ** Decoding a line *)

Lemma text_space_code (c : ascii) : text_space (code c) = is_space c.
Proof.
  assert (0 <= code c < 256) as Hc.
  { unfold code. pose proof (N_ascii_bounded c). lia. }
  unfold text_space, is_space. cbv zeta. lia.
Qed.

Lemma byte_values_cons (c : ascii) (b : string) :
  byte_values (String c b) = code c :: byte_values b.
Proof. reflexivity. Qed.

Lemma utf8_decode_ascii (b : string) :
  is_ascii b = true → utf8_decode (byte_values b) = Some (byte_values b).
Proof.
  induction b as [|c b IH]; [done|]. cbn [is_ascii].
  intros [Hc Hb]%andb_prop. rewrite byte_values_cons. cbn [utf8_decode].
  by rewrite Hc, (IH Hb).
Qed.

Lemma text_lstrip_bytes (b : string) :
  text_lstrip (byte_values b) = byte_values (lstrip b).
Proof.
  induction b as [|c b IH]; [done|].
  rewrite byte_values_cons. cbn [text_lstrip lstrip].
  rewrite text_space_code. by destruct (is_space c).
Qed.

Lemma text_rstrip_bytes (b : string) :
  text_rstrip (byte_values b) = byte_values (rstrip b).
Proof.
  induction b as [|c b IH]; [done|].
  rewrite byte_values_cons. cbn [text_rstrip rstrip].
  rewrite IH, text_space_code.
  destruct (rstrip b); [by destruct (is_space c)|done].
Qed.

(** On bytes that are all below 128, as those of a weather report,
    [process_line] never raises: it returns the same characters without
    the white space at the two ends. *)
Theorem process_line_ascii (b : string) :
  is_ascii b = true →
  process_line (PyBytes b) = Returns (byte_values (strip b)).
Proof.
  intros Hb. unfold process_line. rewrite utf8_decode_ascii by done.
  unfold text_strip, strip. by rewrite text_rstrip_bytes, text_lstrip_bytes.
Qed.

(** The example of the docstring. *)
Lemma process_line_ascii_witness :
  process_line (PyBytes amendment_line)
  = Returns (byte_values "AMDS AFT 2710 NEXT 2804").
Proof. apply (process_line_ascii amendment_line). reflexivity. Defined.

Lemma text_rstrip_split (t : list Z) :
  ∃ r, t = text_rstrip t ++ r ∧ Forall (λ c, text_space c = true) r
       ∧ (∀ c, last (text_rstrip t) = Some c → text_space c = false).
Proof.
  induction t as [|c t (r & Ht & Hr & Hlast)].
  - exists []. by repeat split.
  - cbn [text_rstrip]. destruct (text_rstrip t) as [|d u] eqn:Hu.
    + destruct (text_space c) eqn:Hc.
      * exists (c :: r). cbn in *. subst t. split; [done|]. split; [by constructor|done].
      * exists r. cbn in *. subst t. split; [done|]. split; [done|].
        by intros ? [= <-].
    + exists r. split; [by rewrite Ht at 1|]. split; [done|].
      intros c'. rewrite last_cons. destruct (last (d :: u)) eqn:Hl.
      * intros [= <-]. by apply Hlast.
      * by apply last_None in Hl.
Qed.

Lemma text_lstrip_split (t : list Z) :
  ∃ l, t = l ++ text_lstrip t ∧ Forall (λ c, text_space c = true) l
       ∧ (∀ c, head (text_lstrip t) = Some c → text_space c = false)
       ∧ (∀ c, last (text_lstrip t) = Some c → last t = Some c).
Proof.
  induction t as [|c t (l & Ht & Hl & Hhead & Hlast)].
  - exists []. by repeat split.
  - cbn [text_lstrip]. destruct (text_space c) eqn:Hc.
    + exists (c :: l). split; [by rewrite Ht at 1|]. split; [by constructor|].
      split; [done|]. intros c' Hc'. rewrite last_cons, (Hlast c' Hc'). done.
    + exists []. split; [done|]. split; [done|]. split; [|done].
      by intros ? [= <-].
Qed.

(** Whenever [process_line] returns, what it returns is the decoded text
    without a run of white space at its start and one at its end, and it
    neither starts nor ends with white space. *)
Theorem process_line_trims (b : string) (text : list Z) :
  process_line (PyBytes b) = Returns text →
  ∃ l r : list Z,
    utf8_decode (byte_values b) = Some (l ++ text ++ r)
    ∧ Forall (λ c, text_space c = true) l
    ∧ Forall (λ c, text_space c = true) r
    ∧ (∀ c, head text = Some c → text_space c = false)
    ∧ (∀ c, last text = Some c → text_space c = false).
Proof.
  unfold process_line.
  destruct (utf8_decode (byte_values b)) as [t|]; [|done].
  intros [= <-]. unfold text_strip.
  destruct (text_rstrip_split t) as (r & Ht & Hr & Hlast).
  destruct (text_lstrip_split (text_rstrip t)) as (l & Hu & Hl & Hhead & Hlast').
  exists l, r. split; [f_equal; by rewrite app_assoc, <- Hu|].
  repeat split; try done.
  intros c Hc. apply Hlast. by apply Hlast'.
Qed.

Lemma process_line_trims_witness :
  ∃ l r : list Z,
    utf8_decode (byte_values amendment_line)
    = Some (l ++ byte_values "AMDS AFT 2710 NEXT 2804" ++ r)
    ∧ Forall (λ c, text_space c = true) l
    ∧ Forall (λ c, text_space c = true) r
    ∧ (∀ c, head (byte_values "AMDS AFT 2710 NEXT 2804") = Some c
            → text_space c = false)
    ∧ (∀ c, last (byte_values "AMDS AFT 2710 NEXT 2804") = Some c
            → text_space c = false).
Proof.
  apply (process_line_trims amendment_line). reflexivity.
Defined.

(** A line is decoded as UTF-8 and nothing else: after bytes below 128, a
    byte that cannot start a character, such as a Latin-1 letter or sign
    on its own, makes [process_line] raise [UnicodeDecodeError], whatever
    follows; no character is replaced or dropped. *)
Theorem process_line_stray_byte (pre post : string) (c : ascii) :
  is_ascii pre = true →
  stray_byte c = true →
  process_line (PyBytes (pre +:+ String c post)) = Raises UnicodeDecodeError.
Proof.
  intros Hpre Hc. unfold process_line.
  assert (Hdec : utf8_decode (byte_values (pre +:+ String c post)) = None).
  { induction pre as [|x pre IH].
    - change ("" +:+ String c post) with (String c post).
      rewrite byte_values_cons. cbn [utf8_decode].
      unfold stray_byte in Hc.
      repeat match goal with
      | |- context [?a <? ?b] => destruct (Z.ltb_spec a b); try lia
      | |- context [?a <=? ?b] => destruct (Z.leb_spec a b); try lia
      end; cbn [andb]; done.
    - cbn [is_ascii] in Hpre. apply andb_prop in Hpre as [Hx Hpre].
      rewrite append_cons, byte_values_cons. cbn [utf8_decode].
      by rewrite Hx, (IH Hpre). }
  by rewrite Hdec.
Qed.

Lemma process_line_stray_byte_witness :
  process_line (PyBytes latin1_line) = Raises UnicodeDecodeError.
Proof.
  apply (process_line_stray_byte "TEMP 12" ("C" +:+ NL) (ascii_of_nat 176));
    reflexivity.
Defined.
